(** * k8s-aws-node-cleanup: the reconciliation loop of [main.go]

    The program lists the nodes of a Kubernetes cluster on every tick of a
    timer and deletes the node objects that [isReady] and [isRunning] both
    answer [false] for.  This file embeds [main.go]:

    - the structs of the Kubernetes and EC2 client libraries that the
      program reads, as records ([metav1], [v1], [ec2]);
    - [isReady], a pure function over the node's conditions;
    - the calls that leave the process (timer, node listing, node deletion,
      [DescribeInstances], [log.Println]) as the actions of a small free
      monad [Prog], so that [isRunning] and the body of the [for] loop of
      [main] are programs over those actions;
    - [exec], which runs a program against any implementation of the
      collaborators and records the calls it issued, and [cluster], an API
      server that keeps the node registry. *)

From Stdlib Require Import String List Bool Arith Lia.
Import ListNotations.
Open Scope string_scope.
Open Scope list_scope.

(** ** Go values *)

(** An [error] is represented by the text of its [Error()] method; the nil
    error is [None]. *)
Definition error := string.

Module fmt.
(** [fmt.Errorf(format, arg)] for the two formats of [main.go], both of the
    shape ["<prefix>%s"]. *)
Definition Errorf (prefix arg : string) : error := (prefix ++ arg)%string.
End fmt.

(** ** The client libraries' structs *)

Module metav1.
Record ObjectMeta := { Name : string }.
Record ListOptions := EmptyListOptions {}.
Record DeleteOptions := EmptyDeleteOptions {}.
End metav1.

Module v1.
Definition NodeConditionType := string.
Definition ConditionStatus := string.

(** Constants of [k8s.io/client-go/pkg/api/v1]. *)
Definition NodeReady : NodeConditionType := "Ready".
Definition ConditionTrue : ConditionStatus := "True".
Definition ConditionFalse : ConditionStatus := "False".
Definition ConditionUnknown : ConditionStatus := "Unknown".

Module NodeCondition.
Record t := { Type_ : NodeConditionType; Status : ConditionStatus }.
End NodeCondition.

Record NodeStatus := { Conditions : list NodeCondition.t }.
Record NodeSpec := { ExternalID : string }.
Record Node := {
  ObjectMeta : metav1.ObjectMeta;
  Spec : NodeSpec;
  Status : NodeStatus
}.
Record NodeList := { Items : list Node }.
End v1.

Module ec2.
(** Constant of [github.com/aws/aws-sdk-go/service/ec2]. *)
Definition InstanceStateNameRunning : string := "running".

(** The SDK declares every field as a pointer; the fields read by
    [main.go] are always set in a [DescribeInstances] response and are
    modelled by their values. *)
Record InstanceState := { Name : string }.
Record Instance := { InstanceId : string; State : InstanceState }.
Record Reservation := { Instances : list Instance }.
Record DescribeInstancesInput := { InstanceIds : list string }.
Record DescribeInstancesOutput := { Reservations : list Reservation }.

(** The client handle, [ec2.New(session.New(&aws.Config{Region: ...}))]. *)
Record EC2 := { Region : string }.
End ec2.

(** ** isReady *)

(** [func isReady(conditions []v1.NodeCondition) (bool, error)].  The [for]
    loop returns from inside its body at the first condition of type
    [v1.NodeReady]; falling off the end of the slice reaches the final
    [return false, fmt.Errorf(...)]. *)
Fixpoint isReady (conditions : list v1.NodeCondition.t) : bool * option error :=
  match conditions with
  | [] => (false, Some (fmt.Errorf "cannot find condition type: " v1.NodeReady))
  | condition :: rest =>
      if negb (v1.NodeCondition.Type_ condition =? v1.NodeReady) then
        isReady rest                                        (* continue *)
      else if v1.NodeCondition.Status condition =? v1.ConditionFalse then
        (true, None)
      else
        (false, None)
  end.

(** ** The collaborators' calls and programs over them *)

(** One constructor per call that leaves the process, indexed by the type of
    what the call returns. *)
Inductive Call : Type -> Type :=
| Limiter : Call unit
    (* <-limiter *)
| NodesList (opts : metav1.ListOptions) :
    Call (v1.NodeList * option error)
    (* clientset.CoreV1().Nodes().List(opts) *)
| NodesDelete (name : string) (opts : metav1.DeleteOptions) :
    Call (option error)
    (* clientset.CoreV1().Nodes().Delete(name, opts) *)
| DescribeInstances (svc : ec2.EC2) (input : ec2.DescribeInstancesInput) :
    Call (ec2.DescribeInstancesOutput * option error)
    (* svc.DescribeInstances(input) *)
| Println (operands : list string) : Call unit.
    (* log.Println(operands...) *)

Inductive Prog (A : Type) : Type :=
| Ret (a : A)
| Vis (X : Type) (c : Call X) (k : X -> Prog A).

Arguments Ret {A} a.
Arguments Vis {A X} c k.

Fixpoint bind {A B} (p : Prog A) (f : A -> Prog B) : Prog B :=
  match p with
  | Ret a => f a
  | Vis c k => Vis c (fun x => bind (k x) f)
  end.

Definition call {X} (c : Call X) : Prog X := Vis c (fun x => Ret x).

Declare Scope prog_scope.
Delimit Scope prog_scope with prog.
Notation "x <- p ;; q" := (bind p (fun x => q))
  (at level 100, p at next level, right associativity) : prog_scope.
Notation "' pat <- p ;; q" := (bind p (fun x => match x with pat => q end))
  (at level 100, pat pattern, p at next level, right associativity) : prog_scope.
Notation "p ;; q" := (bind p (fun _ => q))
  (at level 100, right associativity) : prog_scope.
Open Scope prog_scope.

Module log.
(** [log.Println(operands...)]: the logger receives the operands, an error
    operand as its text. *)
Definition Println (operands : list string) : Prog unit :=
  call (Println operands).
End log.

(** ** isRunning *)

(** The inner [for _, instance := range reservation.Instances]: [Some r] when
    the body returned [r], [None] when the loop ran to its end. *)
Fixpoint range_instances (instances : list ec2.Instance) (id : string)
  : option (bool * option error) :=
  match instances with
  | [] => None
  | instance :: rest =>
      if negb (ec2.InstanceId instance =? id) then
        range_instances rest id                             (* continue *)
      else if ec2.Name (ec2.State instance) =? ec2.InstanceStateNameRunning then
        Some (true, None)
      else
        Some (false, None)
  end.

(** The outer [for _, reservation := range resp.Reservations]. *)
Fixpoint range_reservations (reservations : list ec2.Reservation) (id : string)
  : option (bool * option error) :=
  match reservations with
  | [] => None
  | reservation :: rest =>
      match range_instances (ec2.Instances reservation) id with
      | Some r => Some r
      | None => range_reservations rest id
      end
  end.

(** [func isRunning(svc *ec2.EC2, id string) (bool, error)]. *)
Definition isRunning (svc : ec2.EC2) (id : string) : Prog (bool * option error) :=
  '(resp, err) <- call (DescribeInstances svc {| ec2.InstanceIds := [id] |}) ;;
  match err with
  | Some e => Ret (false, Some e)
  | None =>
      if (length (ec2.Reservations resp) =? 0)%nat then
        Ret (false, None)
      else
        match range_reservations (ec2.Reservations resp) id with
        | Some r => Ret r
        | None => Ret (false, Some (fmt.Errorf "cannot find running instance: " id))
        end
  end.

(** ** main *)

(** The body of [for _, node := range list.Items] in [main]; every
    [continue] ends the body.  [svc] is main's EC2 client and [cliDryRun]
    the value of the [--dry] flag. *)
Definition main_node (svc : ec2.EC2) (cliDryRun : bool) (node : v1.Node)
  : Prog unit :=
  let name := metav1.Name (v1.ObjectMeta node) in
  let '(ready, err) := isReady (v1.Conditions (v1.Status node)) in
  match err with
  | Some e => log.Println ["Failed to check if instance is ready:"; e]
  | None =>
      if ready then
        log.Println ["Node is ready, skipping:"; name]
      else
        '(running, err) <- isRunning svc (v1.ExternalID (v1.Spec node)) ;;
        match err with
        | Some e => log.Println ["Failed to check if instance is running:"; e]
        | None =>
            if running then
              log.Println ["Node is running, skipping:"; name]
            else if cliDryRun then
              log.Println ["Node would have been deleted, skipping:"; name]
            else
              err <- call (NodesDelete name metav1.EmptyDeleteOptions) ;;
              match err with
              | Some e => log.Println ["Failed to delete node:"; e]
              | None => Ret tt
              end
        end
  end.

(** [for _, node := range list.Items { ... }]. *)
Fixpoint main_range (svc : ec2.EC2) (cliDryRun : bool) (items : list v1.Node)
  : Prog unit :=
  match items with
  | [] => Ret tt
  | node :: rest => main_node svc cliDryRun node ;; main_range svc cliDryRun rest
  end.

(** One iteration of the outer [for { <-limiter; ... }] of [main]. *)
Definition main_iteration (svc : ec2.EC2) (cliDryRun : bool) : Prog unit :=
  call Limiter ;;
  '(list, err) <- call (NodesList metav1.EmptyListOptions) ;;
  match err with
  | Some e => log.Println ["Failed to lookup node list:"; e]    (* continue *)
  | None => main_range svc cliDryRun (v1.Items list)
  end.

(** The first [ticks] iterations of the outer [for], which has no exit. *)
Fixpoint main_for (svc : ec2.EC2) (cliDryRun : bool) (ticks : nat) : Prog unit :=
  match ticks with
  | O => Ret tt
  | S n => main_iteration svc cliDryRun ;; main_for svc cliDryRun n
  end.

(** ** Running a program *)

(** An implementation of the collaborators over a state [St]: what each call
    returns and the state it leaves. *)
Definition Handler (St : Type) := forall X, Call X -> St -> X * St.

(** A call that was issued. *)
Inductive Event : Type :=
| Ev (X : Type) (c : Call X).

Arguments Ev {X} c.

Record Run (St A : Type) := {
  result : A;
  final : St;
  trace : list Event
}.

Arguments result {St A} r.
Arguments final {St A} r.
Arguments trace {St A} r.

Fixpoint exec {St A} (h : Handler St) (p : Prog A) (s : St) : Run St A :=
  match p with
  | Ret a => {| result := a; final := s; trace := [] |}
  | Vis c k =>
      let '(x, s') := h _ c s in
      let r := exec h (k x) s' in
      {| result := result r; final := final r; trace := Ev c :: trace r |}
  end.

(** [after tr r]: the run [r] with the calls [tr] issued before it. *)
Definition after {St A} (tr : list Event) (r : Run St A) : Run St A :=
  {| result := result r; final := final r; trace := tr ++ trace r |}.

Definition is_delete (e : Event) : bool :=
  match e with
  | Ev (NodesDelete _ _) => true
  | _ => false
  end.

Definition is_describe (e : Event) : bool :=
  match e with
  | Ev (DescribeInstances _ _) => true
  | _ => false
  end.

(** ** An API server and a provider *)

(** The node registry of the cluster, and the number of calls served so
    far. *)
Record World := {
  nodes : list v1.Node;
  now : nat
}.

(** What the environment decides at each moment: whether a listing or a
    deletion fails, and what the provider answers. *)
Record Weather := {
  list_fails : nat -> option error;
  delete_fails : nat -> string -> option error;
  describe : nat -> ec2.EC2 -> ec2.DescribeInstancesInput ->
             ec2.DescribeInstancesOutput * option error
}.

Definition named (name : string) (node : v1.Node) : bool :=
  metav1.Name (v1.ObjectMeta node) =? name.

(** Listing returns the registry, a deletion that succeeds removes the named
    node, and a call that fails changes nothing. *)
Definition cluster (e : Weather) : Handler World :=
  fun X (c : Call X) (w : World) =>
    let w' := {| nodes := nodes w; now := S (now w) |} in
    match c in Call X return X * World with
    | Limiter => (tt, w')
    | NodesList _ =>
        match list_fails e (now w) with
        | Some err => (({| v1.Items := [] |}, Some err), w')
        | None => (({| v1.Items := nodes w |}, None), w')
        end
    | NodesDelete name _ =>
        match delete_fails e (now w) name with
        | Some err => (Some err, w')
        | None =>
            (None, {| nodes := filter (fun n => negb (named name n)) (nodes w);
                      now := S (now w) |})
        end
    | DescribeInstances svc input => (describe e (now w) svc input, w')
    | Println _ => (tt, w')
    end.

(** ** Vocabulary of the statements *)

(** A condition of the type that reports the node's health. *)
Definition health_type (c : v1.NodeCondition.t) : Prop :=
  v1.NodeCondition.Type_ c = v1.NodeReady.

(** The health-type conditions with the given statuses. *)
Definition health_conditions (statuses : list v1.ConditionStatus)
  : list v1.NodeCondition.t :=
  map (fun st => {| v1.NodeCondition.Type_ := v1.NodeReady;
                    v1.NodeCondition.Status := st |}) statuses.

(** The conditions of [cs] that are not of the health type, in their
    order. *)
Definition other_conditions (cs : list v1.NodeCondition.t)
  : list v1.NodeCondition.t :=
  filter (fun c => negb (v1.NodeCondition.Type_ c =? v1.NodeReady)) cs.

(** The instance carries the identifier [id]. *)
Definition carries (id : string) (i : ec2.Instance) : Prop :=
  ec2.InstanceId i = id.

(** The instances of a response, in the order in which the two loops of
    [isRunning] visit them. *)
Definition instances_of (resp : ec2.DescribeInstancesOutput) : list ec2.Instance :=
  flat_map ec2.Instances (ec2.Reservations resp).

(** The request that [isRunning svc id] sends. *)
Definition lookup (svc : ec2.EC2) (id : string)
  : Call (ec2.DescribeInstancesOutput * option error) :=
  DescribeInstances svc {| ec2.InstanceIds := [id] |}.

(** No deletion request is among the calls. *)
Definition no_delete (tr : list Event) : Prop :=
  Forall (fun e => is_delete e = false) tr.

(** No provider query is among the calls. *)
Definition no_describe (tr : list Event) : Prop :=
  Forall (fun e => is_describe e = false) tr.

(** The ways in which the handling of one node fails, started in state [s]:
    [isReady] returns an error; or the node is not ready and [isRunning]
    returns an error; or the node is not ready, the instance is not running,
    the program is not in dry-run mode and the deletion request fails. *)
Inductive Failure {St} (h : Handler St) (svc : ec2.EC2) (cliDryRun : bool)
  (n : v1.Node) (s : St) : Prop :=
| readiness_failure b e :
    isReady (v1.Conditions (v1.Status n)) = (b, Some e) ->
    Failure h svc cliDryRun n s
| lookup_failure b e :
    isReady (v1.Conditions (v1.Status n)) = (false, None) ->
    result (exec h (isRunning svc (v1.ExternalID (v1.Spec n))) s) = (b, Some e) ->
    Failure h svc cliDryRun n s
| deletion_failure e :
    isReady (v1.Conditions (v1.Status n)) = (false, None) ->
    result (exec h (isRunning svc (v1.ExternalID (v1.Spec n))) s) = (false, None) ->
    cliDryRun = false ->
    fst (h _ (NodesDelete (metav1.Name (v1.ObjectMeta n)) metav1.EmptyDeleteOptions)
           (snd (h _ (lookup svc (v1.ExternalID (v1.Spec n))) s))) = Some e ->
    Failure h svc cliDryRun n s.

(** ** Sample nodes, responses and environments *)

Definition condition (ty : v1.NodeConditionType) (st : v1.ConditionStatus)
  : v1.NodeCondition.t :=
  {| v1.NodeCondition.Type_ := ty; v1.NodeCondition.Status := st |}.

Definition node (name id : string) (cs : list v1.NodeCondition.t) : v1.Node :=
  {| v1.ObjectMeta := {| metav1.Name := name |};
     v1.Spec := {| v1.ExternalID := id |};
     v1.Status := {| v1.Conditions := cs |} |}.

Definition instance (id state : string) : ec2.Instance :=
  {| ec2.InstanceId := id; ec2.State := {| ec2.Name := state |} |}.

(** A response with one reservation per list of instances. *)
Definition response (rs : list (list ec2.Instance)) : ec2.DescribeInstancesOutput :=
  {| ec2.Reservations := map ec2.Build_Reservation rs |}.

Definition us_east : ec2.EC2 := {| ec2.Region := "us-east-1" |}.

(** Node n1 reports the health condition with status False and is linked to
    instance i-1. *)
Definition n1 : v1.Node :=
  node "n1" "i-1" [condition "MemoryPressure" "False"; condition "Ready" "False"].

(** Node n2 reports the health condition with status True. *)
Definition n2 : v1.Node := node "n2" "i-2" [condition "Ready" "True"].

(** Node n5 reports no health condition. *)
Definition n5 : v1.Node := node "n5" "i-5" [condition "DiskPressure" "False"].

(** A response in which i-7 is found, stopped, after another instance, and
    once more, running, in a later reservation. *)
Definition found_stopped : ec2.DescribeInstancesOutput :=
  response [[instance "i-3" "running"; instance "i-7" "stopped"];
            [instance "i-7" "running"]].

(** Nothing fails and the provider returns no reservation for any
    identifier. *)
Definition all_gone : Weather :=
  {| list_fails := fun _ => None;
     delete_fails := fun _ _ => None;
     describe := fun _ _ _ => (response [], None) |}.

(** Every call fails. *)
Definition storm : Weather :=
  {| list_fails := fun _ => Some "etcdserver: request timed out";
     delete_fails := fun _ _ => Some "forbidden";
     describe := fun _ _ _ => (response [], Some "RequestLimitExceeded") |}.

(** Listing works, the provider throttles and deletions are refused. *)
Definition throttled : Weather :=
  {| list_fails := fun _ => None;
     delete_fails := fun _ _ => Some "forbidden";
     describe := fun _ _ _ => (response [], Some "RequestLimitExceeded") |}.

(** Listing works, the provider returns no reservation and deletions are
    refused. *)
Definition refused : Weather :=
  {| list_fails := fun _ => None;
     delete_fails := fun _ _ => Some "forbidden";
     describe := fun _ _ _ => (response [], None) |}.

(** ** Vocabulary of the further properties *)

Definition node_name (n : v1.Node) : string := metav1.Name (v1.ObjectMeta n).

Definition node_id (n : v1.Node) : string := v1.ExternalID (v1.Spec n).

(** The health-type conditions of [cs], in their order. *)
Definition health_only (cs : list v1.NodeCondition.t) : list v1.NodeCondition.t :=
  filter (fun c => v1.NodeCondition.Type_ c =? v1.NodeReady) cs.

(** [isReady] answers [(false, nil)] for the node: the loop body goes on to
    the instance lookup. *)
Definition needs_lookup (n : v1.Node) : bool :=
  match isReady (v1.Conditions (v1.Status n)) with
  | (false, None) => true
  | _ => false
  end.

(** [isRunning], called in state [s], answers [(false, nil)]. *)
Definition lookup_says_gone {St} (h : Handler St) (svc : ec2.EC2) (n : v1.Node)
    (s : St) : bool :=
  match result (exec h (isRunning svc (node_id n)) s) with
  | (false, None) => true
  | _ => false
  end.

(** The node reaches the deletion step of the loop body started in [s]. *)
Definition candidate {St} (h : Handler St) (svc : ec2.EC2) (n : v1.Node) (s : St)
  : bool :=
  needs_lookup n && lookup_says_gone h svc n s.

Definition deleted_name (e : Event) : option string :=
  match e with
  | Ev (NodesDelete name _) => Some name
  | _ => None
  end.

Definition queried_ids (e : Event) : option (list string) :=
  match e with
  | Ev (DescribeInstances _ input) => Some (ec2.InstanceIds input)
  | _ => None
  end.

Definition announced_name (e : Event) : option string :=
  match e with
  | Ev (Println [msg; name]) =>
      if msg =? "Node would have been deleted, skipping:" then Some name else None
  | _ => None
  end.

Fixpoint collect {A} (f : Event -> option A) (tr : list Event) : list A :=
  match tr with
  | [] => []
  | e :: rest =>
      match f e with
      | Some a => a :: collect f rest
      | None => collect f rest
      end
  end.

(** The names in the deletion requests among the calls, in their order. *)
Definition deletions (tr : list Event) : list string := collect deleted_name tr.

(** The identifier lists of the provider queries among the calls. *)
Definition lookups (tr : list Event) : list (list string) := collect queried_ids tr.

(** The names in the would-delete log lines among the calls. *)
Definition announcements (tr : list Event) : list string :=
  collect announced_name tr.

Definition printed (e : Event) : option (list string) :=
  match e with
  | Ev (Println operands) => Some operands
  | _ => None
  end.

(** The log lines among the calls, each as its operands. *)
Definition log_lines (tr : list Event) : list (list string) := collect printed tr.

(** The deletion request for the node, issued after its lookup from [s],
    returns a nil error. *)
Definition deletion_succeeds {St} (h : Handler St) (svc : ec2.EC2) (n : v1.Node)
    (s : St) : bool :=
  match fst (h _ (NodesDelete (node_name n) metav1.EmptyDeleteOptions)
               (snd (h _ (lookup svc (node_id n)) s))) with
  | None => true
  | Some _ => false
  end.

(** The waits for the timer and the listings among the calls. *)
Definition is_pacing (e : Event) : bool :=
  match e with
  | Ev Limiter => true
  | Ev (NodesList _) => true
  | _ => false
  end.

(** The call with which the handling of a node begins, whatever the
    collaborators answer: the failure line when [isReady] returns an error,
    the skip line when it answers [true], and the instance lookup
    otherwise. *)
Definition first_call (svc : ec2.EC2) (n : v1.Node) : Event :=
  match isReady (v1.Conditions (v1.Status n)) with
  | (_, Some e) => Ev (Println ["Failed to check if instance is ready:"; e])
  | (true, None) => Ev (Println ["Node is ready, skipping:"; node_name n])
  | (false, None) => Ev (lookup svc (node_id n))
  end.

(** The calls that can begin the handling of a node: the two log lines that
    follow [isReady], and the provider query. *)
Definition opening (e : Event) : bool :=
  match e with
  | Ev (DescribeInstances _ _) => true
  | Ev (Println (msg :: _)) =>
      (msg =? "Failed to check if instance is ready:") ||
      (msg =? "Node is ready, skipping:")
  | _ => false
  end.

(** [Handled h svc cliDryRun items s tr s']: started in [s], each node of
    [items] in turn got the whole loop body, from the state that the node
    before it left; [tr] are the calls issued and [s'] is the state at the
    end. *)
Inductive Handled {St} (h : Handler St) (svc : ec2.EC2) (cliDryRun : bool)
  : list v1.Node -> St -> list Event -> St -> Prop :=
| Handled_nil s : Handled h svc cliDryRun [] s [] s
| Handled_cons n rest s tr s' :
    Handled h svc cliDryRun rest
      (final (exec h (main_node svc cliDryRun n) s)) tr s' ->
    Handled h svc cliDryRun (n :: rest) s
      (trace (exec h (main_node svc cliDryRun n) s) ++ tr) s'.

(** [subseq l1 l2]: [l1] is [l2] with some elements left out. *)
Inductive subseq {A : Type} : list A -> list A -> Prop :=
| subseq_nil : subseq [] []
| subseq_drop x l1 l2 : subseq l1 l2 -> subseq l1 (x :: l2)
| subseq_keep x l1 l2 : subseq l1 l2 -> subseq (x :: l1) (x :: l2).

(** The nodes of [l] whose name is not among [names]. *)
Definition without (names : list string) (l : list v1.Node) : list v1.Node :=
  filter (fun m => negb (existsb (String.eqb (node_name m)) names)) l.

(** Nothing fails at the API server and the provider's answer to a request
    does not change with time. *)
Definition calm
    (answer : ec2.EC2 -> ec2.DescribeInstancesInput ->
              ec2.DescribeInstancesOutput * option error) : Weather :=
  {| list_fails := fun _ => None;
     delete_fails := fun _ _ => None;
     describe := fun _ => answer |}.

(** Under [calm answer] the node reaches the deletion step. *)
Definition stale
    (answer : ec2.EC2 -> ec2.DescribeInstancesInput ->
              ec2.DescribeInstancesOutput * option error)
    (svc : ec2.EC2) (n : v1.Node) : bool :=
  candidate (cluster (calm answer)) svc n {| nodes := []; now := 0 |}.

(** A provider that knows i-1 as terminated, i-2 as running and nothing
    else. *)
Definition two_instances (svc : ec2.EC2) (input : ec2.DescribeInstancesInput)
  : ec2.DescribeInstancesOutput * option error :=
  match ec2.InstanceIds input with
  | [id] =>
      if id =? "i-1" then (response [[instance "i-1" "terminated"]], None)
      else if id =? "i-2" then (response [[instance "i-2" "running"]], None)
      else (response [], None)
  | _ => (response [], Some "InvalidParameterValue")
  end.

(** Nodes that report the health condition with status True or Unknown. *)
Definition m1 : v1.Node := node "m1" "i-1" [condition "Ready" "Unknown"].
Definition m2 : v1.Node := node "m2" "i-2" [condition "Ready" "True"].
Definition m3 : v1.Node := node "m3" "i-3" [condition "Ready" "True"].

(** ** Running programs: equations *)

Lemma after_nil {St A} (r : Run St A) : after [] r = r.
Proof. destruct r; reflexivity. Qed.

Lemma after_after {St A} (t1 t2 : list Event) (r : Run St A) :
  after t1 (after t2 r) = after (t1 ++ t2) r.
Proof. unfold after; simpl. now rewrite app_assoc. Qed.

Lemma exec_bind {St A B} (h : Handler St) (p : Prog A) (f : A -> Prog B) :
  forall s,
    exec h (bind p f) s =
    after (trace (exec h p s)) (exec h (f (result (exec h p s))) (final (exec h p s))).
Proof.
  induction p as [a | X c k IH]; intros s; simpl.
  - now rewrite after_nil.
  - destruct (h X c s) as [x s1]. simpl. rewrite IH. reflexivity.
Qed.

Lemma exec_call {St X} (h : Handler St) (c : Call X) (s : St) :
  exec h (call c) s =
  {| result := fst (h X c s); final := snd (h X c s); trace := [Ev c] |}.
Proof. unfold call; simpl. now destruct (h X c s). Qed.

Lemma exec_Println {St} (h : Handler St) (operands : list string) (s : St) :
  exec h (log.Println operands) s =
  {| result := fst (h _ (Println operands) s);
     final := snd (h _ (Println operands) s);
     trace := [Ev (Println operands)] |}.
Proof. apply exec_call. Qed.

(** ** isReady: the first health-type condition decides *)

Lemma isReady_skip (pre rest : list v1.NodeCondition.t) :
  Forall (fun c => ~ health_type c) pre ->
  isReady (pre ++ rest) = isReady rest.
Proof.
  induction 1 as [| c pre Hc _ IH]; simpl; [reflexivity |].
  unfold health_type in Hc.
  destruct (String.eqb_spec (v1.NodeCondition.Type_ c) v1.NodeReady); [contradiction |].
  exact IH.
Qed.

Lemma isReady_here (c : v1.NodeCondition.t) (rest : list v1.NodeCondition.t) :
  health_type c ->
  isReady (c :: rest) = (v1.NodeCondition.Status c =? v1.ConditionFalse, None).
Proof.
  unfold health_type; intros Hc; simpl.
  rewrite (proj2 (String.eqb_eq _ _) Hc); simpl.
  now destruct (v1.NodeCondition.Status c =? v1.ConditionFalse).
Qed.

Lemma isReady_first (pre : list v1.NodeCondition.t) c post :
  Forall (fun d => ~ health_type d) pre -> health_type c ->
  isReady (pre ++ c :: post) = (v1.NodeCondition.Status c =? v1.ConditionFalse, None).
Proof. intros Hpre Hc. rewrite isReady_skip by assumption. now apply isReady_here. Qed.

Lemma isReady_absent (cs : list v1.NodeCondition.t) :
  Forall (fun c => ~ health_type c) cs ->
  isReady cs = (false, Some "cannot find condition type: Ready").
Proof.
  intros H. rewrite <- (app_nil_r cs). rewrite isReady_skip by assumption. reflexivity.
Qed.

(** Every sequence either has no health-type condition or splits at the
    first one. *)
Lemma first_health_condition (cs : list v1.NodeCondition.t) :
  Forall (fun c => ~ health_type c) cs \/
  exists pre c post,
    cs = pre ++ c :: post /\ Forall (fun d => ~ health_type d) pre /\ health_type c.
Proof.
  induction cs as [| c cs IH]; [left; constructor |].
  destruct (String.eqb_spec (v1.NodeCondition.Type_ c) v1.NodeReady) as [E | E].
  - right. exists [], c, cs. repeat split; [constructor | exact E].
  - destruct IH as [IH | (pre & d & post & -> & Hpre & Hd)].
    + left. constructor; assumption.
    + right. exists (c :: pre), d, post. repeat split; [constructor |]; assumption.
Qed.

Lemma isReady_present_no_error (cs : list v1.NodeCondition.t) :
  Exists health_type cs -> snd (isReady cs) = None.
Proof.
  intros Hex. destruct (first_health_condition cs) as [H | (pre & c & post & -> & Hpre & Hc)].
  - apply Exists_exists in Hex. destruct Hex as (c & Hin & Hc).
    rewrite Forall_forall in H. now elim (H c Hin).
  - now rewrite isReady_first by assumption.
Qed.

(** ** isRunning: the scan of the response *)

Lemma range_reservations_flat (rs : list ec2.Reservation) (id : string) :
  range_reservations rs id = range_instances (flat_map ec2.Instances rs) id.
Proof.
  induction rs as [| r rs IH]; simpl; [reflexivity |].
  rewrite IH. clear IH.
  induction (ec2.Instances r) as [| i l IHi]; simpl; [reflexivity |].
  destruct (negb (ec2.InstanceId i =? id)); [exact IHi |].
  now destruct (ec2.Name (ec2.State i) =? ec2.InstanceStateNameRunning).
Qed.

Lemma range_instances_skip (pre rest : list ec2.Instance) (id : string) :
  Forall (fun i => ~ carries id i) pre ->
  range_instances (pre ++ rest) id = range_instances rest id.
Proof.
  induction 1 as [| i pre Hi _ IH]; simpl; [reflexivity |].
  unfold carries in Hi.
  destruct (String.eqb_spec (ec2.InstanceId i) id); [contradiction | exact IH].
Qed.

Lemma range_instances_here (i : ec2.Instance) (rest : list ec2.Instance) (id : string) :
  carries id i ->
  range_instances (i :: rest) id =
  Some (ec2.Name (ec2.State i) =? ec2.InstanceStateNameRunning, None).
Proof.
  unfold carries; intros Hi; simpl.
  rewrite (proj2 (String.eqb_eq _ _) Hi); simpl.
  now destruct (ec2.Name (ec2.State i) =? ec2.InstanceStateNameRunning).
Qed.

Lemma range_instances_none (l : list ec2.Instance) (id : string) :
  range_instances l id = None <-> Forall (fun i => ~ carries id i) l.
Proof.
  induction l as [| i l IH]; simpl.
  - split; [constructor | reflexivity].
  - unfold carries at 1.
    destruct (String.eqb_spec (ec2.InstanceId i) id) as [E | E]; simpl.
    + split.
      * destruct (ec2.Name (ec2.State i) =? ec2.InstanceStateNameRunning); discriminate.
      * intros H. inversion H; subst. contradiction.
    + rewrite IH. split.
      * intros H. constructor; assumption.
      * intros H. now inversion H.
Qed.

Lemma range_instances_some_no_error (l : list ec2.Instance) (id : string) r :
  range_instances l id = Some r -> snd r = None.
Proof.
  induction l as [| i l IH]; simpl; [discriminate |].
  destruct (negb (ec2.InstanceId i =? id)); [exact IH |].
  destruct (ec2.Name (ec2.State i) =? ec2.InstanceStateNameRunning);
    intros [= <-]; reflexivity.
Qed.

(** What [isRunning] returns, by the provider's answer. *)
Lemma exec_isRunning {St} (h : Handler St) (s s' : St) svc id resp err :
  h _ (lookup svc id) s = ((resp, err), s') ->
  exec h (isRunning svc id) s =
  {| result :=
       match err with
       | Some e => (false, Some e)
       | None =>
           match ec2.Reservations resp with
           | [] => (false, None)
           | _ :: _ =>
               match range_instances (instances_of resp) id with
               | Some r => r
               | None => (false, Some (fmt.Errorf "cannot find running instance: " id))
               end
           end
       end;
     final := s';
     trace := [Ev (lookup svc id)] |}.
Proof.
  intros Hh. unfold isRunning, lookup in *. simpl. rewrite Hh.
  destruct err as [e |]; simpl; [reflexivity |].
  unfold instances_of. rewrite <- range_reservations_flat.
  destruct (ec2.Reservations resp) as [| r rs]; [reflexivity |].
  cbn [length Nat.eqb].
  now destruct (range_reservations (r :: rs) id).
Qed.

(** ** isReady: the claims *)

Lemma other_conditions_not_health (cs : list v1.NodeCondition.t) :
  Forall (fun c => ~ health_type c) (other_conditions cs).
Proof.
  apply Forall_forall. intros c Hin.
  apply filter_In in Hin. destruct Hin as [_ Hc].
  unfold health_type. intros E. rewrite E in Hc. discriminate.
Qed.

(** C2.  For every sequence that contains the health-type condition, written
    as conditions of other types, then the first health-type condition with
    its status [st], then anything, [isReady] returns a nil error, and the
    boolean is [true] exactly when [st] is False.  Where the claim wants
    [false] for status False and [true] for any other status, the code
    returns the opposite: status False gives [(true, nil)], status True or
    Unknown gives [(false, nil)]. *)
Theorem isReady_status_inverted :
  (forall pre st post,
     isReady (other_conditions pre ++ condition v1.NodeReady st :: post) =
     (st =? v1.ConditionFalse, None)) /\
  isReady [condition v1.NodeReady v1.ConditionFalse] = (true, None) /\
  isReady [condition v1.NodeReady v1.ConditionTrue] = (false, None) /\
  isReady [condition v1.NodeReady v1.ConditionUnknown] = (false, None).
Proof.
  split; [| repeat split].
  intros pre st post.
  apply (isReady_first (other_conditions pre) (condition v1.NodeReady st) post).
  - apply other_conditions_not_health.
  - reflexivity.
Qed.

(** C6.  [isReady] returns an error exactly when the sequence has no
    condition of the health type; it is then the error "cannot find condition
    type: Ready", and the loop body logs it and does nothing else with the
    node: it neither reports the node as ready nor looks the instance up. *)
Theorem isReady_error_iff_absent (cs : list v1.NodeCondition.t) :
  (snd (isReady cs) <> None <-> Forall (fun c => ~ health_type c) cs) /\
  (Forall (fun c => ~ health_type c) cs ->
   isReady cs = (false, Some "cannot find condition type: Ready") /\
   forall svc cliDryRun n,
     v1.Conditions (v1.Status n) = cs ->
     main_node svc cliDryRun n =
     log.Println ["Failed to check if instance is ready:";
                  "cannot find condition type: Ready"]).
Proof.
  split.
  - split.
    + intros Herr.
      destruct (first_health_condition cs) as [H | (pre & c & post & -> & Hpre & Hc)];
        [exact H |].
      rewrite isReady_first in Herr by assumption. now elim Herr.
    + intros H. rewrite isReady_absent by assumption. discriminate.
  - intros H. split; [now apply isReady_absent |].
    intros svc dry n Hn. unfold main_node. rewrite Hn, isReady_absent by assumption.
    reflexivity.
Qed.

Lemma isReady_error_iff_absent_witness :
  isReady (v1.Conditions (v1.Status n5)) =
    (false, Some "cannot find condition type: Ready") /\
  main_node us_east false n5 =
    log.Println ["Failed to check if instance is ready:";
                 "cannot find condition type: Ready"].
Proof.
  assert (H : Forall (fun c => ~ health_type c) (v1.Conditions (v1.Status n5))).
  { repeat constructor. discriminate. }
  destruct (proj2 (isReady_error_iff_absent _) H) as [H1 H2].
  split; [exact H1 | now apply H2].
Defined.

(** C10.  The first health-type condition alone determines the result:
    whatever precedes it (no health-type condition) and whatever follows it,
    the result is that of the one-element sequence; and inserting further
    health-type conditions anywhere after a health-type condition changes
    neither the boolean nor the error. *)
Theorem isReady_first_decides :
  (forall pre c post,
     Forall (fun d => ~ health_type d) pre -> health_type c ->
     isReady (pre ++ c :: post) = isReady [c]) /\
  (forall l1 statuses l2,
     Exists health_type l1 ->
     isReady (l1 ++ health_conditions statuses ++ l2) = isReady (l1 ++ l2)).
Proof.
  split.
  - intros pre c post Hpre Hc.
    rewrite isReady_first by assumption. symmetry. now apply isReady_here.
  - intros l1 statuses l2 Hex.
    destruct (first_health_condition l1) as [H | (pre & c & post & -> & Hpre & Hc)].
    + apply Exists_exists in Hex. destruct Hex as (c & Hin & Hc).
      rewrite Forall_forall in H. now elim (H c Hin).
    + rewrite <- !app_assoc. simpl.
      now rewrite !isReady_first by assumption.
Qed.

Lemma isReady_first_decides_witness :
  isReady ([condition "OutOfDisk" "False"] ++
           condition "Ready" "Unknown" :: [condition "Ready" "False"]) =
    isReady [condition "Ready" "Unknown"] /\
  isReady ([condition "Ready" "False"; condition "OutOfDisk" "False"] ++
           health_conditions ["True"; "Unknown"] ++ [condition "Ready" "True"]) =
    isReady ([condition "Ready" "False"; condition "OutOfDisk" "False"] ++
             [condition "Ready" "True"]).
Proof.
  split.
  - apply (proj1 isReady_first_decides).
    + repeat constructor. discriminate.
    + reflexivity.
  - apply (proj2 isReady_first_decides).
    apply Exists_cons_hd. reflexivity.
Defined.

(** ** isRunning: the claims *)

(** C3.  When the provider answers without error and the response holds an
    instance carrying the queried identifier, [isRunning] returns a nil error
    and the boolean is [true] exactly when the lifecycle state of that
    instance, the first one with the identifier in the order of the response,
    is "running". *)
Theorem isRunning_found {St} (h : Handler St) (s s' : St) svc id resp pre inst post :
  h _ (lookup svc id) s = ((resp, None), s') ->
  instances_of resp = pre ++ inst :: post ->
  Forall (fun i => ~ carries id i) pre ->
  carries id inst ->
  result (exec h (isRunning svc id) s) =
  (ec2.Name (ec2.State inst) =? "running", None).
Proof.
  intros Hh Hsplit Hpre Hinst.
  rewrite (exec_isRunning _ _ _ _ _ _ _ Hh). simpl.
  rewrite Hsplit, range_instances_skip, range_instances_here by assumption.
  destruct (ec2.Reservations resp) as [| r rs] eqn:E; [| reflexivity].
  unfold instances_of in Hsplit. rewrite E in Hsplit. simpl in Hsplit.
  now destruct pre.
Qed.

Lemma isRunning_found_witness :
  result (exec (cluster {| list_fails := fun _ => None;
                           delete_fails := fun _ _ => None;
                           describe := fun _ _ _ => (found_stopped, None) |})
               (isRunning us_east "i-7") {| nodes := []; now := 0 |}) =
  (false, None).
Proof.
  apply (@isRunning_found _ _ _ {| nodes := []; now := 1 |} us_east "i-7" found_stopped
           [instance "i-3" "running"] (instance "i-7" "stopped")
           [instance "i-7" "running"]).
  - reflexivity.
  - reflexivity.
  - repeat constructor. discriminate.
  - reflexivity.
Defined.

(** When all the instances of the response that carry the identifier are in
    the same state, as when the identifier occurs once, any of them gives the
    result. *)
Corollary isRunning_found_unique {St} (h : Handler St) (s s' : St) svc id resp inst :
  h _ (lookup svc id) s = ((resp, None), s') ->
  In inst (instances_of resp) ->
  carries id inst ->
  (forall j, In j (instances_of resp) -> carries id j ->
             ec2.Name (ec2.State j) = ec2.Name (ec2.State inst)) ->
  result (exec h (isRunning svc id) s) =
  (ec2.Name (ec2.State inst) =? "running", None).
Proof.
  intros Hh Hin Hinst Hsame.
  rewrite (exec_isRunning _ _ _ _ _ _ _ Hh). cbn [result].
  destruct (ec2.Reservations resp) as [| r rs] eqn:E.
  - unfold instances_of in Hin. rewrite E in Hin. contradiction.
  - destruct (range_instances (instances_of resp) id) as [res |] eqn:Hscan.
    + revert Hscan Hsame. clear Hin E.
      induction (instances_of resp) as [| i l IH]; simpl; [discriminate |].
      destruct (String.eqb_spec (ec2.InstanceId i) id) as [Ei | Ei]; simpl.
      * intros Hres Hsame. rewrite <- (Hsame i (or_introl eq_refl) Ei).
        unfold ec2.InstanceStateNameRunning in Hres.
        destruct (ec2.Name (ec2.State i) =? "running"); now inversion Hres.
      * intros Hres Hsame. apply IH; [exact Hres |].
        intros j Hj. apply Hsame. now right.
    + apply range_instances_none in Hscan. rewrite Forall_forall in Hscan.
      now elim (Hscan inst Hin).
Qed.

(** C4.  When the provider answers without error and with zero reservations,
    [isRunning] returns [(false, nil)]. *)
Theorem isRunning_no_reservations {St} (h : Handler St) (s s' : St) svc id resp :
  h _ (lookup svc id) s = ((resp, None), s') ->
  ec2.Reservations resp = [] ->
  result (exec h (isRunning svc id) s) = (false, None).
Proof.
  intros Hh Hnil. rewrite (exec_isRunning _ _ _ _ _ _ _ Hh). simpl. now rewrite Hnil.
Qed.

Lemma isRunning_no_reservations_witness :
  result (exec (cluster all_gone) (isRunning us_east "i-1") {| nodes := [n1]; now := 0 |}) =
  (false, None).
Proof.
  apply (@isRunning_no_reservations _ _ _ {| nodes := [n1]; now := 1 |} us_east "i-1"
           (response [])); reflexivity.
Defined.

(** ** main: one node *)

Section OneNode.
Context {St : Type} (h : Handler St) (svc : ec2.EC2) (cliDryRun : bool).
Variable n : v1.Node.

Let name := metav1.Name (v1.ObjectMeta n).
Let id := v1.ExternalID (v1.Spec n).

Lemma isRunning_run (s : St) :
  exists r,
    exec h (isRunning svc id) s =
    {| result := r; final := snd (h _ (lookup svc id) s);
       trace := [Ev (lookup svc id)] |}.
Proof.
  destruct (h _ (lookup svc id) s) as [[resp err] s'] eqn:Hh.
  rewrite (exec_isRunning _ _ _ _ _ _ _ Hh). eexists; reflexivity.
Qed.

Lemma main_node_readiness_error b e :
  isReady (v1.Conditions (v1.Status n)) = (b, Some e) ->
  main_node svc cliDryRun n =
  log.Println ["Failed to check if instance is ready:"; e].
Proof. unfold main_node; now intros ->. Qed.

Lemma main_node_ready :
  isReady (v1.Conditions (v1.Status n)) = (true, None) ->
  main_node svc cliDryRun n = log.Println ["Node is ready, skipping:"; name].
Proof. unfold main_node; now intros ->. Qed.

(** From here on the node is not ready, and [isRunning] is called. *)
Hypothesis not_ready : isReady (v1.Conditions (v1.Status n)) = (false, None).

Lemma exec_main_node_lookup_error (s : St) b e :
  result (exec h (isRunning svc id) s) = (b, Some e) ->
  exec h (main_node svc cliDryRun n) s =
  after [Ev (lookup svc id)]
    (exec h (log.Println ["Failed to check if instance is running:"; e])
       (snd (h _ (lookup svc id) s))).
Proof.
  intros Hres. unfold main_node. rewrite not_ready, exec_bind.
  fold id. destruct (isRunning_run s) as [r Hr]. rewrite Hr in *. simpl in Hres.
  subst r. reflexivity.
Qed.

Lemma exec_main_node_running (s : St) :
  result (exec h (isRunning svc id) s) = (true, None) ->
  exec h (main_node svc cliDryRun n) s =
  after [Ev (lookup svc id)]
    (exec h (log.Println ["Node is running, skipping:"; name])
       (snd (h _ (lookup svc id) s))).
Proof.
  intros Hres. unfold main_node. rewrite not_ready, exec_bind.
  fold id. destruct (isRunning_run s) as [r Hr]. rewrite Hr in *. simpl in Hres.
  subst r. reflexivity.
Qed.

(** From here on the instance is not running either: the node is to be
    deleted. *)
Variable s : St.
Hypothesis not_running : result (exec h (isRunning svc id) s) = (false, None).

Lemma exec_main_node_candidate :
  exec h (main_node svc cliDryRun n) s =
  after [Ev (lookup svc id)]
    (exec h
       (if cliDryRun then
          log.Println ["Node would have been deleted, skipping:"; name]
        else
          err <- call (NodesDelete name metav1.EmptyDeleteOptions) ;;
          match err with
          | Some e => log.Println ["Failed to delete node:"; e]
          | None => Ret tt
          end)
       (snd (h _ (lookup svc id) s))).
Proof.
  unfold main_node. rewrite not_ready, exec_bind.
  fold id. destruct (isRunning_run s) as [r Hr]. rewrite Hr in *.
  simpl in not_running. subst r. reflexivity.
Qed.
End OneNode.

(** C5.  [isRunning] returns an error exactly when the provider's answer
    carries an error, or it holds at least one reservation and no instance of
    any reservation carries the queried identifier.  The provider's error is
    returned as it is.  In both cases the caller, having found the node not
    ready, logs the error and goes on to the next node: after the lookup it
    issues no call but the log line, so no deletion. *)
Theorem isRunning_error_iff {St} (h : Handler St) (s s' : St) svc id resp err :
  h _ (lookup svc id) s = ((resp, err), s') ->
  let r := result (exec h (isRunning svc id) s) in
  (snd r <> None <->
   err <> None \/
   (ec2.Reservations resp <> [] /\
    Forall (fun i => ~ carries id i) (instances_of resp))) /\
  (forall e, err = Some e -> r = (false, Some e)) /\
  (forall e cliDryRun n,
     v1.ExternalID (v1.Spec n) = id ->
     isReady (v1.Conditions (v1.Status n)) = (false, None) ->
     snd r = Some e ->
     trace (exec h (main_node svc cliDryRun n) s) =
     [Ev (lookup svc id);
      Ev (Println ["Failed to check if instance is running:"; e])]).
Proof.
  intros Hh r. split; [| split].
  - subst r. rewrite (exec_isRunning _ _ _ _ _ _ _ Hh). simpl.
    destruct err as [e |]; simpl.
    + split; [intros _; left; discriminate | discriminate].
    + destruct (ec2.Reservations resp) as [| r0 rs] eqn:E; simpl.
      * split; [intros H; now elim H |].
        intros [H | [H _]]; now elim H.
      * destruct (range_instances (instances_of resp) id) as [r |] eqn:Hscan.
        -- rewrite (range_instances_some_no_error _ _ _ Hscan).
           split; [intros H; now elim H |].
           intros [H | [_ H]]; [now elim H |].
           apply range_instances_none in H. congruence.
        -- simpl. split; [| discriminate].
           intros _. right. split; [discriminate |].
           now apply range_instances_none.
  - intros e ->. subst r. now rewrite (exec_isRunning _ _ _ _ _ _ _ Hh).
  - intros e dry n Hid Hready Herr. subst id.
    destruct r as [b oe] eqn:Hr. simpl in Herr. subst oe.
    rewrite (exec_main_node_lookup_error h svc dry n Hready s b e Hr).
    rewrite exec_Println. reflexivity.
Qed.

Lemma isRunning_error_iff_witness :
  result (exec (cluster throttled) (isRunning us_east "i-1") {| nodes := [n1]; now := 0 |}) =
    (false, Some "RequestLimitExceeded") /\
  snd (result (exec (cluster {| list_fails := fun _ => None;
                                delete_fails := fun _ _ => None;
                                describe := fun _ _ _ => (found_stopped, None) |})
                 (isRunning us_east "i-9") {| nodes := []; now := 0 |})) <> None.
Proof.
  split.
  - refine (proj1 (proj2 (@isRunning_error_iff _ (cluster throttled)
             {| nodes := [n1]; now := 0 |} {| nodes := [n1]; now := 1 |}
             us_east "i-1" (response []) (Some "RequestLimitExceeded") eq_refl))
             "RequestLimitExceeded" eq_refl).
  - refine (proj2 (proj1 (@isRunning_error_iff _ _
             {| nodes := []; now := 0 |} {| nodes := []; now := 1 |}
             us_east "i-9" found_stopped None eq_refl)) _).
    right. split; [discriminate |].
    repeat constructor; discriminate.
Defined.

(** ** main: the loops *)

Lemma trace_after {St A} (tr : list Event) (r : Run St A) :
  trace (after tr r) = tr ++ trace r.
Proof. reflexivity. Qed.

Lemma final_after {St A} (tr : list Event) (r : Run St A) :
  final (after tr r) = final r.
Proof. reflexivity. Qed.

Lemma exec_main_range_cons {St} (h : Handler St) svc cliDryRun n rest s :
  exec h (main_range svc cliDryRun (n :: rest)) s =
  after (trace (exec h (main_node svc cliDryRun n) s))
    (exec h (main_range svc cliDryRun rest)
       (final (exec h (main_node svc cliDryRun n) s))).
Proof. cbn [main_range]. now rewrite exec_bind. Qed.

Lemma exec_main_for_succ {St} (h : Handler St) svc cliDryRun ticks s :
  exec h (main_for svc cliDryRun (S ticks)) s =
  after (trace (exec h (main_iteration svc cliDryRun) s))
    (exec h (main_for svc cliDryRun ticks)
       (final (exec h (main_iteration svc cliDryRun) s))).
Proof. cbn [main_for]. now rewrite exec_bind. Qed.

(** What one iteration does, by the answer to the listing. *)
Lemma exec_main_iteration {St} (h : Handler St) svc cliDryRun s s1 s2 l err :
  h _ Limiter s = (tt, s1) ->
  h _ (NodesList metav1.EmptyListOptions) s1 = ((l, err), s2) ->
  exec h (main_iteration svc cliDryRun) s =
  after [Ev Limiter; Ev (NodesList metav1.EmptyListOptions)]
    (exec h
       match err with
       | Some e => log.Println ["Failed to lookup node list:"; e]
       | None => main_range svc cliDryRun (v1.Items l)
       end s2).
Proof.
  intros H1 H2. unfold main_iteration, call. cbn [bind exec].
  rewrite H1. cbn [bind exec]. rewrite H2. reflexivity.
Qed.

(** *** Dry run *)

Lemma main_node_dry_no_delete {St} (h : Handler St) svc n s :
  no_delete (trace (exec h (main_node svc true n) s)).
Proof.
  unfold no_delete.
  destruct (isReady (v1.Conditions (v1.Status n))) as [ready [e |]] eqn:Hready.
  - rewrite (main_node_readiness_error svc true n _ _ Hready), exec_Println.
    repeat constructor.
  - destruct ready.
    + rewrite (main_node_ready svc true n Hready), exec_Println. repeat constructor.
    + destruct (result (exec h (isRunning svc (v1.ExternalID (v1.Spec n))) s))
        as [running [e |]] eqn:Hres.
      * rewrite (exec_main_node_lookup_error h svc true n Hready s _ _ Hres), exec_Println.
        repeat constructor.
      * destruct running.
        -- rewrite (exec_main_node_running h svc true n Hready s Hres), exec_Println.
           repeat constructor.
        -- rewrite (exec_main_node_candidate h svc true n Hready s Hres), exec_Println.
           repeat constructor.
Qed.

Lemma main_range_dry_no_delete {St} (h : Handler St) svc items :
  forall s, no_delete (trace (exec h (main_range svc true items) s)).
Proof.
  induction items as [| n rest IH]; intros s.
  - constructor.
  - rewrite exec_main_range_cons, trace_after. apply Forall_app. split.
    + apply main_node_dry_no_delete.
    + apply IH.
Qed.

Lemma main_iteration_dry_no_delete {St} (h : Handler St) svc s :
  no_delete (trace (exec h (main_iteration svc true) s)).
Proof.
  destruct (h _ Limiter s) as [[] s1] eqn:H1.
  destruct (h _ (NodesList metav1.EmptyListOptions) s1) as [[l err] s2] eqn:H2.
  rewrite (exec_main_iteration h svc true s _ _ _ _ H1 H2), trace_after.
  apply Forall_app. split; [repeat constructor |].
  destruct err as [e |].
  - rewrite exec_Println. repeat constructor.
  - apply main_range_dry_no_delete.
Qed.

Lemma main_for_dry_no_delete {St} (h : Handler St) svc ticks :
  forall s, no_delete (trace (exec h (main_for svc true ticks) s)).
Proof.
  induction ticks as [| ticks IH]; intros s.
  - constructor.
  - rewrite exec_main_for_succ, trace_after. apply Forall_app. split.
    + apply main_iteration_dry_no_delete.
    + apply IH.
Qed.

(** On the cluster, a run that issues no deletion request leaves the node
    registry as it was. *)
Lemma cluster_frame {A} (e : Weather) (p : Prog A) :
  forall w,
    no_delete (trace (exec (cluster e) p w)) ->
    nodes (final (exec (cluster e) p w)) = nodes w.
Proof.
  unfold no_delete.
  induction p as [a | X c k IH]; intros w Hq; [reflexivity |].
  simpl in *.
  destruct (cluster e X c w) as [x w1] eqn:Hc. simpl in *.
  inversion Hq as [| ev tr Hev Htr]; subst.
  rewrite (IH x w1 Htr).
  destruct c; simpl in *; try discriminate;
    repeat match goal with
           | H : context [match ?o with _ => _ end] |- _ => destruct o
           end;
    inversion Hc; reflexivity.
Qed.

(** ** main: the claims *)

(** C7.  When the listing of the nodes fails, the iteration consists of the
    wait for the timer, the listing and the log line "Failed to lookup node
    list: ..." and of nothing else, whatever list came with the error: no
    provider query and no deletion request.  The loop then goes on with its
    next iteration, which starts by waiting for the timer. *)
Theorem list_failure_skips_tick {St} (h : Handler St) svc cliDryRun ticks
    (s s1 s2 : St) l e :
  h _ Limiter s = (tt, s1) ->
  h _ (NodesList metav1.EmptyListOptions) s1 = ((l, Some e), s2) ->
  let line := Println ["Failed to lookup node list:"; e] in
  let calls := [Ev Limiter; Ev (NodesList metav1.EmptyListOptions); Ev line] in
  exec h (main_iteration svc cliDryRun) s =
    {| result := tt; final := snd (h _ line s2); trace := calls |} /\
  no_describe calls /\ no_delete calls /\
  exec h (main_for svc cliDryRun (S ticks)) s =
    after calls (exec h (main_for svc cliDryRun ticks) (snd (h _ line s2))).
Proof.
  intros H1 H2 line calls.
  assert (Hit : exec h (main_iteration svc cliDryRun) s =
                {| result := tt; final := snd (h _ line s2); trace := calls |}).
  { rewrite (exec_main_iteration h svc cliDryRun s _ _ _ _ H1 H2), exec_Println.
    unfold after; simpl. fold line. now destruct (fst (h unit line s2)). }
  split; [exact Hit |].
  split; [repeat constructor |].
  split; [repeat constructor |].
  rewrite exec_main_for_succ, Hit. reflexivity.
Qed.

Lemma list_failure_skips_tick_witness :
  exec (cluster storm) (main_for us_east false 2) {| nodes := [n1; n2]; now := 0 |} =
  after [Ev Limiter; Ev (NodesList metav1.EmptyListOptions);
         Ev (Println ["Failed to lookup node list:"; "etcdserver: request timed out"])]
    (exec (cluster storm) (main_for us_east false 1) {| nodes := [n1; n2]; now := 3 |}).
Proof.
  refine (proj2 (proj2 (proj2
    (@list_failure_skips_tick _ (cluster storm) us_east false 1
       {| nodes := [n1; n2]; now := 0 |} {| nodes := [n1; n2]; now := 1 |}
       {| nodes := [n1; n2]; now := 2 |} {| v1.Items := [] |}
       "etcdserver: request timed out" eq_refl eq_refl)))).
Defined.

(** C8.  With the dry-run flag set, no run of the loop, against any
    implementation of the collaborators and for any number of ticks, issues a
    deletion request; a node that reaches the deletion step (not ready,
    instance not running) gets the lookup and the log line "Node would have
    been deleted, skipping: <name>" and nothing more; and on the cluster the
    node registry after the run is the registry before it. *)
Theorem dry_run_never_deletes (svc : ec2.EC2) :
  (forall St (h : Handler St) ticks s,
     no_delete (trace (exec h (main_for svc true ticks) s))) /\
  (forall St (h : Handler St) n s,
     isReady (v1.Conditions (v1.Status n)) = (false, None) ->
     result (exec h (isRunning svc (v1.ExternalID (v1.Spec n))) s) = (false, None) ->
     trace (exec h (main_node svc true n) s) =
     [Ev (lookup svc (v1.ExternalID (v1.Spec n)));
      Ev (Println ["Node would have been deleted, skipping:";
                               metav1.Name (v1.ObjectMeta n)])]) /\
  (forall e ticks w,
     nodes (final (exec (cluster e) (main_for svc true ticks) w)) = nodes w).
Proof.
  split; [| split].
  - intros St h ticks s. apply main_for_dry_no_delete.
  - intros St h n s Hready Hres.
    rewrite (exec_main_node_candidate h svc true n Hready s Hres), exec_Println.
    reflexivity.
  - intros e ticks w. apply cluster_frame, main_for_dry_no_delete.
Qed.

Lemma dry_run_never_deletes_witness :
  trace (exec (cluster all_gone) (main_node us_east true n2) {| nodes := [n2]; now := 0 |}) =
  [Ev (lookup us_east "i-2");
   Ev (Println ["Node would have been deleted, skipping:"; "n2"])].
Proof.
  apply (proj1 (proj2 (dry_run_never_deletes us_east)) World (cluster all_gone) n2
           {| nodes := [n2]; now := 0 |}); reflexivity.
Defined.

(** C1.  Scenario A on the code: node n1 reports the health condition with
    status False and the provider has no reservation for i-1.  [isReady]
    answers [true] for n1, so the loop body only logs "Node is ready,
    skipping: n1": against any collaborators and with either value of the
    flag it issues no provider query and no deletion request, and neither
    logs the would-delete line.  On the cluster, a whole iteration leaves n1
    registered.  The same holds for every node whose first health-type
    condition has status False, whatever the provider would answer. *)
Theorem scenario_A_node_is_skipped :
  isReady (v1.Conditions (v1.Status n1)) = (true, None) /\
  (forall St (h : Handler St) svc cliDryRun s,
     trace (exec h (main_node svc cliDryRun n1) s) =
     [Ev (Println ["Node is ready, skipping:"; "n1"])]) /\
  (forall cliDryRun,
     trace (exec (cluster all_gone) (main_iteration us_east cliDryRun)
              {| nodes := [n1]; now := 0 |}) =
     [Ev Limiter; Ev (NodesList metav1.EmptyListOptions);
      Ev (Println ["Node is ready, skipping:"; "n1"])] /\
     nodes (final (exec (cluster all_gone) (main_iteration us_east cliDryRun)
                     {| nodes := [n1]; now := 0 |})) = [n1]) /\
  (forall name id pre post svc cliDryRun,
     main_node svc cliDryRun
       (node name id
          (other_conditions pre ++ condition v1.NodeReady v1.ConditionFalse :: post)) =
     log.Println ["Node is ready, skipping:"; name]).
Proof.
  split; [reflexivity |]. split; [| split].
  - intros St h svc dry s.
    rewrite (main_node_ready svc dry n1 eq_refl), exec_Println. reflexivity.
  - intros dry. split; reflexivity.
  - intros name id pre post svc dry. apply main_node_ready. simpl.
    apply (isReady_first (other_conditions pre)
             (condition v1.NodeReady v1.ConditionFalse) post).
    + apply other_conditions_not_health.
    + reflexivity.
Qed.

(** The other side of the same inversion: node n2 reports the health
    condition with status True; when the provider has no reservation for its
    instance, the loop deletes it. *)
Example healthy_node_is_deleted :
  exec (cluster all_gone) (main_iteration us_east false) {| nodes := [n1; n2]; now := 0 |} =
  {| result := tt;
     final := {| nodes := [n1]; now := 5 |};
     trace := [Ev Limiter; Ev (NodesList metav1.EmptyListOptions);
               Ev (Println ["Node is ready, skipping:"; "n1"]);
               Ev (lookup us_east "i-2");
               Ev (NodesDelete "n2" metav1.EmptyDeleteOptions)] |}.
Proof. reflexivity. Qed.

(** * Further properties of the code *)

(** ** isReady *)

(** X1.  [isReady] looks at the health-type conditions only: the conditions of
    every other type can be removed, added or reordered without a change of
    the result. *)
Theorem isReady_ignores_other_types (cs : list v1.NodeCondition.t) :
  isReady cs = isReady (health_only cs).
Proof.
  induction cs as [| c cs IH]; [reflexivity |].
  cbn [health_only filter isReady].
  destruct (v1.NodeCondition.Type_ c =? v1.NodeReady) eqn:E; cbn [negb].
  - cbn [isReady]. rewrite E. reflexivity.
  - exact IH.
Qed.

(** ** isRunning *)

(** The scan returns exactly at the first instance that carries the
    identifier. *)
Lemma range_instances_some (l : list ec2.Instance) (id : string) r :
  range_instances l id = Some r <->
  exists pre inst post,
    l = pre ++ inst :: post /\ Forall (fun i => ~ carries id i) pre /\
    carries id inst /\ r = (ec2.Name (ec2.State inst) =? "running", None).
Proof.
  split.
  - induction l as [| i l IH]; cbn [range_instances]; [discriminate |].
    destruct (String.eqb_spec (ec2.InstanceId i) id) as [E | E]; cbn [negb].
    + intros Hr. exists [], i, l. repeat split; [constructor | exact E |].
      unfold ec2.InstanceStateNameRunning in Hr.
      destruct (ec2.Name (ec2.State i) =? "running"); now inversion Hr.
    + intros Hr. destruct (IH Hr) as (pre & inst & post & -> & Hpre & Hinst & ->).
      exists (i :: pre), inst, post. repeat split; [constructor |]; assumption.
  - intros (pre & inst & post & -> & Hpre & Hinst & ->).
    rewrite range_instances_skip, range_instances_here by assumption. reflexivity.
Qed.

(** X2.  [isRunning] answers [true] exactly when the provider's answer has no
    error and the first instance of the response that carries the identifier
    is in state "running"; [true] never comes with an error. *)
Theorem isRunning_true_iff {St} (h : Handler St) (s s' : St) svc id resp err :
  h _ (lookup svc id) s = ((resp, err), s') ->
  let r := result (exec h (isRunning svc id) s) in
  (fst r = true <->
   err = None /\
   exists pre inst post,
     instances_of resp = pre ++ inst :: post /\
     Forall (fun i => ~ carries id i) pre /\ carries id inst /\
     ec2.Name (ec2.State inst) = "running") /\
  (fst r = true -> snd r = None).
Proof.
  intros Hh r. subst r. rewrite (exec_isRunning _ _ _ _ _ _ _ Hh). cbn [result].
  destruct err as [e |].
  { split; [split |]; [discriminate | intros [H _]; discriminate | discriminate]. }
  destruct (ec2.Reservations resp) as [| r0 rs] eqn:E.
  { split; [split |]; [discriminate | | discriminate].
    intros [_ (pre & inst & post & Hsplit & _)].
    unfold instances_of in Hsplit. rewrite E in Hsplit. now destruct pre. }
  destruct (range_instances (instances_of resp) id) as [r |] eqn:Hscan.
  - apply range_instances_some in Hscan.
    destruct Hscan as (pre & inst & post & Hsplit & Hpre & Hinst & ->).
    cbn [fst snd]. split; [split |]; [| | reflexivity].
    + intros Hrun. split; [reflexivity |].
      exists pre, inst, post. repeat split; try assumption.
      now apply String.eqb_eq.
    + intros [_ (pre' & inst' & post' & Hsplit' & Hpre' & Hinst' & Hstate)].
      assert (Hr : range_instances (instances_of resp) id =
                   Some (ec2.Name (ec2.State inst) =? "running", None)).
      { rewrite Hsplit, range_instances_skip, range_instances_here by assumption.
        reflexivity. }
      rewrite Hsplit', range_instances_skip, range_instances_here in Hr by assumption.
      injection Hr as Hb.
      transitivity (ec2.Name (ec2.State inst') =? ec2.InstanceStateNameRunning);
        [symmetry; exact Hb | apply String.eqb_eq; exact Hstate].
  - apply range_instances_none in Hscan.
    split; [split |]; [discriminate | | discriminate].
    intros [_ (pre & inst & post & Hsplit & _ & Hinst & _)].
    rewrite Hsplit in Hscan. apply Forall_app in Hscan. destruct Hscan as [_ Hscan].
    inversion Hscan; subst. contradiction.
Qed.

Lemma isRunning_true_iff_witness :
  fst (result (exec (cluster (calm two_instances)) (isRunning us_east "i-2")
                 {| nodes := []; now := 0 |})) = true.
Proof.
  refine (proj2 (proj1 (@isRunning_true_iff _ (cluster (calm two_instances))
            {| nodes := []; now := 0 |} {| nodes := []; now := 1 |} us_east "i-2"
            (response [[instance "i-2" "running"]]) None eq_refl)) _).
  split; [reflexivity |].
  exists [], (instance "i-2" "running"), []. repeat split. constructor.
Defined.

(** X3.  [isRunning] answers [(false, nil)], the answer on which the caller goes
    on to delete the node, in exactly two situations, both with a nil error
    from the provider: the response holds no reservation, or the first
    instance of the response that carries the identifier is in a state other
    than "running". *)
Theorem isRunning_false_nil_iff {St} (h : Handler St) (s s' : St) svc id resp err :
  h _ (lookup svc id) s = ((resp, err), s') ->
  (result (exec h (isRunning svc id) s) = (false, None) <->
   err = None /\
   (ec2.Reservations resp = [] \/
    exists pre inst post,
      instances_of resp = pre ++ inst :: post /\
      Forall (fun i => ~ carries id i) pre /\ carries id inst /\
      ec2.Name (ec2.State inst) <> "running")).
Proof.
  intros Hh. rewrite (exec_isRunning _ _ _ _ _ _ _ Hh). cbn [result].
  destruct err as [e |].
  { split; [discriminate | intros [H _]; discriminate]. }
  destruct (ec2.Reservations resp) as [| r0 rs] eqn:E.
  { split; [intros _; split; [reflexivity | now left] | reflexivity]. }
  destruct (range_instances (instances_of resp) id) as [r |] eqn:Hscan.
  - pose proof Hscan as Hsome. apply range_instances_some in Hscan.
    destruct Hscan as (pre & inst & post & Hsplit & Hpre & Hinst & ->).
    split.
    + intros Hr. split; [reflexivity |]. right.
      exists pre, inst, post. repeat split; try assumption.
      apply String.eqb_neq. now injection Hr.
    + intros [_ [H | (pre' & inst' & post' & Hsplit' & Hpre' & Hinst' & Hstate)]];
        [discriminate |].
      rewrite Hsplit', range_instances_skip, range_instances_here in Hsome by assumption.
      injection Hsome as Hb. apply String.eqb_neq in Hstate.
      unfold ec2.InstanceStateNameRunning in Hb. now rewrite <- Hb, Hstate.
  - apply range_instances_none in Hscan. split; [discriminate |].
    intros [_ [H | (pre & inst & post & Hsplit & _ & Hinst & _)]]; [discriminate |].
    rewrite Hsplit in Hscan. apply Forall_app in Hscan. destruct Hscan as [_ Hscan].
    inversion Hscan; subst. contradiction.
Qed.

Lemma isRunning_false_nil_iff_witness :
  result (exec (cluster (calm two_instances)) (isRunning us_east "i-1")
            {| nodes := []; now := 0 |}) = (false, None).
Proof.
  refine (proj2 (@isRunning_false_nil_iff _ (cluster (calm two_instances))
            {| nodes := []; now := 0 |} {| nodes := []; now := 1 |} us_east "i-1"
            (response [[instance "i-1" "terminated"]]) None eq_refl) _).
  split; [reflexivity |]. right.
  exists [], (instance "i-1" "terminated"), []. repeat split.
  - constructor.
  - discriminate.
Defined.

(** Whatever the provider answers, [isRunning] issues one call and no more:
    a [DescribeInstances] for the one identifier it was given; the state of
    the collaborators after it is the state that call left. *)
Theorem isRunning_one_call {St} (h : Handler St) (s : St) svc id :
  trace (exec h (isRunning svc id) s) =
    [Ev (DescribeInstances svc {| ec2.InstanceIds := [id] |})] /\
  final (exec h (isRunning svc id) s) =
    snd (h _ (DescribeInstances svc {| ec2.InstanceIds := [id] |}) s).
Proof.
  destruct (h _ (lookup svc id) s) as [[resp err] s'] eqn:Hh.
  rewrite (exec_isRunning _ _ _ _ _ _ _ Hh). unfold lookup in Hh. rewrite Hh.
  split; reflexivity.
Qed.

(** ** main: what one node's handling issues *)

Lemma collect_app {A} (f : Event -> option A) (t1 t2 : list Event) :
  collect f (t1 ++ t2) = collect f t1 ++ collect f t2.
Proof.
  induction t1 as [| e t1 IH]; [reflexivity |].
  simpl. destruct (f e); simpl; now rewrite IH.
Qed.

(** Case analysis on the two answers that decide the handling of a node. *)
Ltac node_cases h svc dry n s :=
  let Hready := fresh "Hready" in
  let Hres := fresh "Hres" in
  unfold candidate, needs_lookup, lookup_says_gone, node_id, node_name;
  destruct (isReady (v1.Conditions (v1.Status n))) as [[|] [?e |]] eqn:Hready;
  [ rewrite (main_node_readiness_error svc dry n _ _ Hready)
  | rewrite (main_node_ready svc dry n Hready)
  | rewrite (main_node_readiness_error svc dry n _ _ Hready)
  | destruct (result (exec h (isRunning svc (v1.ExternalID (v1.Spec n))) s))
      as [[|] [?e |]] eqn:Hres;
    [ rewrite (exec_main_node_lookup_error h svc dry n Hready s _ _ Hres)
    | rewrite (exec_main_node_running h svc dry n Hready s Hres)
    | rewrite (exec_main_node_lookup_error h svc dry n Hready s _ _ Hres)
    | rewrite (exec_main_node_candidate h svc dry n Hready s Hres) ] ];
  rewrite ?exec_Println.

(** The provider is queried for a node exactly when [isReady] answers
    [(false, nil)] for it, and then once, for the node's ExternalID alone. *)
Lemma node_lookups {St} (h : Handler St) svc cliDryRun n (s : St) :
  lookups (trace (exec h (main_node svc cliDryRun n) s)) =
  if needs_lookup n then [[node_id n]] else [].
Proof.
  node_cases h svc cliDryRun n s; try reflexivity.
  cbn [trace after app lookups collect queried_ids lookup ec2.InstanceIds].
  f_equal. destruct cliDryRun.
  - rewrite exec_Println. reflexivity.
  - unfold call. cbn [bind exec].
    destruct (h _ (NodesDelete _ _) _) as [[e |] s2]; cbn [bind];
      rewrite ?exec_Println; reflexivity.
Qed.

Lemma node_deletions {St} (h : Handler St) svc cliDryRun n (s : St) :
  deletions (trace (exec h (main_node svc cliDryRun n) s)) =
  if negb cliDryRun && candidate h svc n s then [node_name n] else [].
Proof.
  node_cases h svc cliDryRun n s; try (destruct cliDryRun; reflexivity).
  destruct cliDryRun.
  - rewrite exec_Println. reflexivity.
  - unfold call. cbn [bind exec].
    destruct (h _ (NodesDelete _ _) _) as [[e |] s2]; cbn [bind];
      rewrite ?exec_Println; reflexivity.
Qed.

(** X4.  A deletion is requested for a node exactly when the flag is off,
    [isReady] answers [(false, nil)] and [isRunning] answers [(false, nil)];
    the request then names that node, and is the only one.  With the flag on,
    the would-delete line is logged in exactly the same situation and names
    the same node; with the flag off it is never logged. *)
Theorem main_node_deletions {St} (h : Handler St) svc cliDryRun n (s : St) :
  deletions (trace (exec h (main_node svc cliDryRun n) s)) =
    (if negb cliDryRun && candidate h svc n s then [node_name n] else []) /\
  announcements (trace (exec h (main_node svc cliDryRun n) s)) =
    (if cliDryRun && candidate h svc n s then [node_name n] else []).
Proof.
  node_cases h svc cliDryRun n s;
    try (destruct cliDryRun; split; reflexivity).
  destruct cliDryRun.
  - rewrite exec_Println. split; reflexivity.
  - unfold call. cbn [bind exec].
    destruct (h _ (NodesDelete _ _) _) as [[e |] s2]; cbn [bind];
      rewrite ?exec_Println; split; reflexivity.
Qed.

(** X5.  The flag matters at the deletion step only: for a node that does not
    reach it, the run with the flag on and the run with the flag off are the
    same, calls, result and final state. *)
Theorem dry_flag_only_at_deletion {St} (h : Handler St) svc n (s : St) :
  candidate h svc n s = false ->
  exec h (main_node svc true n) s = exec h (main_node svc false n) s.
Proof.
  unfold candidate, needs_lookup, lookup_says_gone, node_id.
  destruct (isReady (v1.Conditions (v1.Status n))) as [[|] [e |]] eqn:Hready.
  - intros _. now rewrite !(main_node_readiness_error svc _ n _ _ Hready).
  - intros _. now rewrite !(main_node_ready svc _ n Hready).
  - intros _. now rewrite !(main_node_readiness_error svc _ n _ _ Hready).
  - destruct (result (exec h (isRunning svc (v1.ExternalID (v1.Spec n))) s))
      as [[|] [e |]] eqn:Hres; cbn [andb]; intros Hc.
    + now rewrite !(exec_main_node_lookup_error h svc _ n Hready s _ _ Hres).
    + now rewrite !(exec_main_node_running h svc _ n Hready s Hres).
    + now rewrite !(exec_main_node_lookup_error h svc _ n Hready s _ _ Hres).
    + discriminate.
Qed.

Lemma dry_flag_only_at_deletion_witness :
  exec (cluster (calm two_instances)) (main_node us_east true m2)
    {| nodes := [m2]; now := 0 |} =
  exec (cluster (calm two_instances)) (main_node us_east false m2)
    {| nodes := [m2]; now := 0 |}.
Proof.
  apply (@dry_flag_only_at_deletion _ (cluster (calm two_instances)) us_east m2
           {| nodes := [m2]; now := 0 |}).
  reflexivity.
Defined.

(** X6.  A node that [isReady] finds not ready and whose instance [isRunning]
    finds running is left alone, with the flag on or off: after the lookup
    the only call is the log line "Node is running, skipping: <name>". *)
Theorem running_node_is_skipped {St} (h : Handler St) svc cliDryRun n (s : St) :
  isReady (v1.Conditions (v1.Status n)) = (false, None) ->
  result (exec h (isRunning svc (node_id n)) s) = (true, None) ->
  trace (exec h (main_node svc cliDryRun n) s) =
  [Ev (lookup svc (node_id n));
   Ev (Println ["Node is running, skipping:"; node_name n])].
Proof.
  intros Hready Hres. unfold node_id in *.
  rewrite (exec_main_node_running h svc cliDryRun n Hready s Hres), exec_Println.
  reflexivity.
Qed.

Lemma running_node_is_skipped_witness :
  trace (exec (cluster (calm two_instances)) (main_node us_east false m2)
           {| nodes := [m2]; now := 0 |}) =
  [Ev (lookup us_east "i-2"); Ev (Println ["Node is running, skipping:"; "m2"])].
Proof.
  apply (@running_node_is_skipped _ (cluster (calm two_instances)) us_east false m2
           {| nodes := [m2]; now := 0 |}); reflexivity.
Defined.

(** X7.  With the flag off, a node that reaches the deletion step gets the lookup
    and a deletion request by its name; when the request succeeds nothing is
    logged, and the state of the collaborators is the one the request left. *)
Theorem deletion_is_silent {St} (h : Handler St) svc n (s s2 : St) :
  candidate h svc n s = true ->
  h _ (NodesDelete (node_name n) metav1.EmptyDeleteOptions)
    (snd (h _ (lookup svc (node_id n)) s)) = (None, s2) ->
  exec h (main_node svc false n) s =
  {| result := tt; final := s2;
     trace := [Ev (lookup svc (node_id n));
               Ev (NodesDelete (node_name n) metav1.EmptyDeleteOptions)] |}.
Proof.
  unfold candidate, needs_lookup, lookup_says_gone, node_id, node_name.
  destruct (isReady (v1.Conditions (v1.Status n))) as [[|] [e |]] eqn:Hready;
    try discriminate.
  destruct (result (exec h (isRunning svc (v1.ExternalID (v1.Spec n))) s))
    as [[|] [e |]] eqn:Hres; try discriminate.
  intros _ Hdel.
  rewrite (exec_main_node_candidate h svc false n Hready s Hres).
  unfold call. cbn [bind exec]. rewrite Hdel. reflexivity.
Qed.

Lemma deletion_is_silent_witness :
  exec (cluster (calm two_instances)) (main_node us_east false m1)
    {| nodes := [m1; m2]; now := 0 |} =
  {| result := tt; final := {| nodes := [m2]; now := 2 |};
     trace := [Ev (lookup us_east "i-1");
               Ev (NodesDelete "m1" metav1.EmptyDeleteOptions)] |}.
Proof.
  apply (@deletion_is_silent _ (cluster (calm two_instances)) us_east m1
           {| nodes := [m1; m2]; now := 0 |} {| nodes := [m2]; now := 2 |});
    reflexivity.
Defined.

(** ** main: what one pass over the listing issues *)

Lemma subseq_length {A} (l1 l2 : list A) : subseq l1 l2 -> length l1 <= length l2.
Proof. induction 1; simpl; lia. Qed.

Lemma range_lookups {St} (h : Handler St) svc cliDryRun items :
  forall s : St,
    lookups (trace (exec h (main_range svc cliDryRun items) s)) =
    map (fun n => [node_id n]) (filter needs_lookup items).
Proof.
  induction items as [| n rest IH]; intros s; [reflexivity |].
  rewrite exec_main_range_cons, trace_after.
  unfold lookups in *. rewrite collect_app, IH.
  fold (lookups (trace (exec h (main_node svc cliDryRun n) s))).
  rewrite node_lookups. cbn [filter].
  now destruct (needs_lookup n).
Qed.

(** X8.  In one pass over a listing, whatever the collaborators answer: the
    provider is queried once for each listed node for which [isReady] answers
    [(false, nil)], in the order of the listing, each query carrying that
    node's ExternalID alone, and no other query is made; the deletion
    requests name nodes among those, in the order of the listing, each at
    most as often as it is listed; so there are never more deletion requests
    than provider queries. *)
Theorem main_range_calls {St} (h : Handler St) svc cliDryRun items (s : St) :
  let tr := trace (exec h (main_range svc cliDryRun items) s) in
  lookups tr = map (fun n => [node_id n]) (filter needs_lookup items) /\
  subseq (deletions tr) (map node_name (filter needs_lookup items)) /\
  length (deletions tr) <= length (lookups tr).
Proof.
  intros tr. subst tr.
  assert (Hsub : forall s : St,
             subseq (deletions (trace (exec h (main_range svc cliDryRun items) s)))
                    (map node_name (filter needs_lookup items))).
  { clear s. induction items as [| n rest IH]; intros s; [constructor |].
    rewrite exec_main_range_cons, trace_after.
    unfold deletions in *. rewrite collect_app.
    fold (deletions (trace (exec h (main_node svc cliDryRun n) s))).
    rewrite node_deletions.
    cbn [filter]. unfold candidate.
    destruct (needs_lookup n); cbn [andb map].
    - destruct (negb cliDryRun && lookup_says_gone h svc n s); cbn [app].
      + apply subseq_keep, IH.
      + apply subseq_drop, IH.
    - rewrite andb_false_r. apply IH. }
  split; [apply range_lookups |].
  split; [apply Hsub |].
  rewrite range_lookups, length_map, <- (length_map node_name).
  apply subseq_length, Hsub.
Qed.

(** ** main on the cluster, when nothing fails *)

Lemma without_nil (l : list v1.Node) : without [] l = l.
Proof.
  unfold without. induction l as [| m l IH]; [reflexivity |].
  simpl. f_equal. exact IH.
Qed.

Lemma without_cons (name : string) (names : list string) (l : list v1.Node) :
  without (name :: names) l =
  without names (filter (fun n => negb (named name n)) l).
Proof.
  induction l as [| m l IH]; [reflexivity |].
  unfold without in *. cbn [filter existsb]. unfold named at 1.
  fold (node_name m).
  destruct (node_name m =? name); cbn [negb orb filter].
  - exact IH.
  - destruct (existsb _ names); cbn [negb]; [exact IH | f_equal; exact IH].
Qed.

(** When no deletion fails, the registry after a run is the registry before
    it without the nodes named in the run's deletion requests. *)
Lemma cluster_deletions {A} (e : Weather) (p : Prog A) :
  (forall t name, delete_fails e t name = None) ->
  forall w,
    nodes (final (exec (cluster e) p w)) =
    without (deletions (trace (exec (cluster e) p w))) (nodes w).
Proof.
  intros Hok. induction p as [a | X c k IH]; intros w.
  - cbn. now rewrite without_nil.
  - cbn [exec]. destruct (cluster e X c w) as [x w1] eqn:Hc.
    cbn [final trace]. rewrite IH.
    destruct c; cbn in Hc |- *.
    + inversion Hc; subst. reflexivity.
    + destruct (list_fails e (now w)); inversion Hc; subst; reflexivity.
    + rewrite Hok in Hc. inversion Hc; subst.
      unfold deletions. cbn [collect deleted_name].
      now rewrite without_cons.
    + inversion Hc; subst. reflexivity.
    + inversion Hc; subst. reflexivity.
Qed.

(** Under [calm answer] the answer of [isRunning] does not depend on the
    moment of the call. *)
Lemma candidate_calm answer svc n (w : World) :
  candidate (cluster (calm answer)) svc n w = stale answer svc n.
Proof.
  unfold stale, candidate, lookup_says_gone. f_equal.
  destruct (answer svc {| ec2.InstanceIds := [node_id n] |}) as [resp err] eqn:Ha.
  rewrite (exec_isRunning (cluster (calm answer)) w
             {| nodes := nodes w; now := S (now w) |} svc (node_id n) resp err),
          (exec_isRunning (cluster (calm answer)) {| nodes := []; now := 0 |}
             {| nodes := []; now := 1 |} svc (node_id n) resp err).
  - reflexivity.
  - cbn. now rewrite Ha.
  - cbn. now rewrite Ha.
Qed.

Lemma calm_range_deletions answer svc items :
  forall w,
    deletions (trace (exec (cluster (calm answer)) (main_range svc false items) w)) =
    map node_name (filter (stale answer svc) items).
Proof.
  induction items as [| n rest IH]; intros w; [reflexivity |].
  rewrite exec_main_range_cons, trace_after.
  unfold deletions in *. rewrite collect_app, IH.
  fold (deletions (trace (exec (cluster (calm answer)) (main_node svc false n) w))).
  rewrite node_deletions, candidate_calm.
  cbn [negb andb filter]. now destruct (stale answer svc n).
Qed.

Lemma calm_iteration answer svc (w : World) :
  exec (cluster (calm answer)) (main_iteration svc false) w =
  after [Ev Limiter; Ev (NodesList metav1.EmptyListOptions)]
    (exec (cluster (calm answer)) (main_range svc false (nodes w))
       {| nodes := nodes w; now := S (S (now w)) |}).
Proof.
  rewrite (exec_main_iteration (cluster (calm answer)) svc false w
             {| nodes := nodes w; now := S (now w) |}
             {| nodes := nodes w; now := S (S (now w)) |}
             {| v1.Items := nodes w |} None); reflexivity.
Qed.

Lemma same_name_same_node (l : list v1.Node) (n m : v1.Node) :
  NoDup (map node_name l) -> In n l -> In m l -> node_name n = node_name m -> n = m.
Proof.
  induction l as [| x l IH]; cbn [map]; intros Hnd Hn Hm E; [contradiction |].
  inversion Hnd as [| ? ? Hx Hl]; subst.
  destruct Hn as [-> | Hn], Hm as [-> | Hm].
  - reflexivity.
  - elim Hx. rewrite E. now apply in_map.
  - elim Hx. rewrite <- E. now apply in_map.
  - now apply IH.
Qed.

Lemma without_stale (f : v1.Node -> bool) (l : list v1.Node) :
  NoDup (map node_name l) ->
  without (map node_name (filter f l)) l = filter (fun m => negb (f m)) l.
Proof.
  intros Hnd. unfold without. apply filter_ext_in. intros m Hm. f_equal.
  destruct (f m) eqn:Hf.
  - apply existsb_exists. exists (node_name m). split; [| apply String.eqb_refl].
    apply in_map, filter_In. now split.
  - destruct (existsb _ _) eqn:Hex; [| reflexivity].
    apply existsb_exists in Hex. destruct Hex as (name & Hin & Hname).
    apply in_map_iff in Hin. destruct Hin as (n & <- & Hn).
    apply filter_In in Hn. destruct Hn as [Hn Hfn].
    apply String.eqb_eq in Hname.
    rewrite (same_name_same_node l n m Hnd Hn Hm (eq_sym Hname)) in Hfn.
    congruence.
Qed.

Lemma filter_none (f : v1.Node -> bool) (l : list v1.Node) :
  filter f (filter (fun m => negb (f m)) l) = [].
Proof.
  induction l as [| m l IH]; [reflexivity |].
  cbn [filter]. destruct (f m) eqn:Hf; cbn [negb filter]; [exact IH |].
  now rewrite Hf.
Qed.

(** One iteration under [calm answer], on a cluster whose nodes have
    distinct names. *)
Lemma calm_iteration_effect answer svc (w : World) :
  NoDup (map node_name (nodes w)) ->
  deletions (trace (exec (cluster (calm answer)) (main_iteration svc false) w)) =
    map node_name (filter (stale answer svc) (nodes w)) /\
  nodes (final (exec (cluster (calm answer)) (main_iteration svc false) w)) =
    filter (fun m => negb (stale answer svc m)) (nodes w).
Proof.
  intros Hnd.
  assert (Hdel : deletions (trace (exec (cluster (calm answer))
                                     (main_iteration svc false) w)) =
                 map node_name (filter (stale answer svc) (nodes w))).
  { rewrite calm_iteration, trace_after.
    unfold deletions. rewrite collect_app. cbn [collect deleted_name app].
    apply calm_range_deletions. }
  split; [exact Hdel |].
  rewrite cluster_deletions by reflexivity.
  rewrite Hdel. now apply without_stale.
Qed.

(** Once no registered node reaches the deletion step, further iterations
    request nothing and keep the registry. *)
Lemma calm_settled answer svc (k : nat) :
  forall w,
    filter (stale answer svc) (nodes w) = [] ->
    deletions (trace (exec (cluster (calm answer)) (main_for svc false k) w)) = [] /\
    nodes (final (exec (cluster (calm answer)) (main_for svc false k) w)) = nodes w.
Proof.
  induction k as [| k IH]; intros w Hnone; [split; reflexivity |].
  rewrite exec_main_for_succ, trace_after, final_after.
  assert (Hdel : deletions (trace (exec (cluster (calm answer))
                                     (main_iteration svc false) w)) = []).
  { rewrite calm_iteration, trace_after. unfold deletions.
    rewrite collect_app. cbn [collect deleted_name app].
    fold (deletions (trace (exec (cluster (calm answer))
                              (main_range svc false (nodes w))
                              {| nodes := nodes w; now := S (S (now w)) |}))).
    now rewrite calm_range_deletions, Hnone. }
  assert (Hnodes : nodes (final (exec (cluster (calm answer))
                                   (main_iteration svc false) w)) = nodes w).
  { rewrite cluster_deletions by reflexivity. rewrite Hdel. apply without_nil. }
  destruct (IH (final (exec (cluster (calm answer)) (main_iteration svc false) w)))
    as [IHd IHn]; [now rewrite Hnodes |].
  split.
  - unfold deletions in *. now rewrite collect_app, Hdel, IHd.
  - now rewrite IHn.
Qed.

(** X9.  On a cluster whose nodes have distinct names, when no call fails and the
    provider's answers do not change with time, the first iteration with the
    flag off requests the deletion of exactly the registered nodes for which
    [isReady] and [isRunning] both answer [(false, nil)], in listing order,
    and leaves exactly the other nodes registered, in their order.  The loop
    has then settled: however many iterations follow, the deletion requests
    of the whole run are those of the first iteration and the registry stays
    as the first iteration left it, so no node is asked for twice. *)
Theorem calm_loop_settles answer svc (w : World) (k : nat) :
  NoDup (map node_name (nodes w)) ->
  let r1 := exec (cluster (calm answer)) (main_iteration svc false) w in
  let r := exec (cluster (calm answer)) (main_for svc false (S k)) w in
  deletions (trace r1) = map node_name (filter (stale answer svc) (nodes w)) /\
  nodes (final r1) = filter (fun m => negb (stale answer svc m)) (nodes w) /\
  deletions (trace r) = deletions (trace r1) /\
  nodes (final r) = nodes (final r1).
Proof.
  intros Hnd r1 r. subst r1 r.
  destruct (calm_iteration_effect answer svc w Hnd) as [Hdel Hnodes].
  split; [exact Hdel |]. split; [exact Hnodes |].
  rewrite exec_main_for_succ, trace_after, final_after.
  destruct (calm_settled answer svc k
              (final (exec (cluster (calm answer)) (main_iteration svc false) w)))
    as [Hd Hn].
  { rewrite Hnodes. apply filter_none. }
  split.
  - unfold deletions in *. now rewrite collect_app, Hd, app_nil_r.
  - exact Hn.
Qed.

Lemma calm_loop_settles_witness :
  deletions (trace (exec (cluster (calm two_instances)) (main_for us_east false 3)
                      {| nodes := [n1; m1; m2; m3]; now := 0 |})) = ["m1"; "m3"] /\
  nodes (final (exec (cluster (calm two_instances)) (main_for us_east false 3)
                  {| nodes := [n1; m1; m2; m3]; now := 0 |})) = [n1; m2].
Proof.
  assert (Hnd : NoDup (map node_name [n1; m1; m2; m3])).
  { cbn. repeat constructor; cbn; intuition discriminate. }
  destruct (calm_loop_settles two_instances us_east
              {| nodes := [n1; m1; m2; m3]; now := 0 |} 2 Hnd)
    as (_ & _ & Hd & Hn).
  split; [rewrite Hd | rewrite Hn]; reflexivity.
Defined.

(** ** main: log lines and pacing *)

(** X10.  The handling of a node writes exactly one log line, with one exception:
    when the flag is off, the node reaches the deletion step and the deletion
    request succeeds, it writes none. *)
Theorem one_log_line_per_node {St} (h : Handler St) svc cliDryRun n (s : St) :
  length (log_lines (trace (exec h (main_node svc cliDryRun n) s))) =
  if negb cliDryRun && candidate h svc n s && deletion_succeeds h svc n s
  then 0 else 1.
Proof.
  unfold deletion_succeeds.
  node_cases h svc cliDryRun n s;
    try (destruct cliDryRun; reflexivity);
    try (cbn [andb]; rewrite ?andb_false_r; reflexivity).
  destruct cliDryRun.
  - rewrite exec_Println. reflexivity.
  - unfold call. cbn [bind exec negb andb].
    destruct (h _ (NodesDelete _ _) _) as [[e |] s2]; cbn [bind fst];
      rewrite ?exec_Println; reflexivity.
Qed.

Lemma pacing_app (t1 t2 : list Event) :
  filter is_pacing (t1 ++ t2) = filter is_pacing t1 ++ filter is_pacing t2.
Proof. apply filter_app. Qed.

Lemma main_node_no_pacing {St} (h : Handler St) svc cliDryRun n (s : St) :
  filter is_pacing (trace (exec h (main_node svc cliDryRun n) s)) = [].
Proof.
  node_cases h svc cliDryRun n s; try reflexivity.
  destruct cliDryRun.
  - rewrite exec_Println. reflexivity.
  - unfold call. cbn [bind exec].
    destruct (h _ (NodesDelete _ _) _) as [[e |] s2]; cbn [bind];
      rewrite ?exec_Println; reflexivity.
Qed.

Lemma main_range_no_pacing {St} (h : Handler St) svc cliDryRun items :
  forall s : St,
    filter is_pacing (trace (exec h (main_range svc cliDryRun items) s)) = [].
Proof.
  induction items as [| n rest IH]; intros s; [reflexivity |].
  now rewrite exec_main_range_cons, trace_after, pacing_app, main_node_no_pacing, IH.
Qed.

(** X11.  Whatever the collaborators answer, the loop lists the nodes once per
    iteration and only after waiting for the timer: among the calls of the
    first [ticks] iterations, the waits and the listings alternate, [ticks]
    of each, starting with a wait. *)
Theorem one_listing_per_tick {St} (h : Handler St) svc cliDryRun ticks :
  forall s : St,
    filter is_pacing (trace (exec h (main_for svc cliDryRun ticks) s)) =
    concat (repeat [Ev Limiter; Ev (NodesList metav1.EmptyListOptions)] ticks).
Proof.
  induction ticks as [| ticks IH]; intros s; [reflexivity |].
  rewrite exec_main_for_succ, trace_after, pacing_app, IH.
  cbn [repeat concat]. f_equal.
  destruct (h _ Limiter s) as [[] s1] eqn:H1.
  destruct (h _ (NodesList metav1.EmptyListOptions) s1) as [[l err] s2] eqn:H2.
  rewrite (exec_main_iteration h svc cliDryRun s _ _ _ _ H1 H2), trace_after, pacing_app.
  destruct err as [e |].
  - rewrite exec_Println. reflexivity.
  - rewrite main_range_no_pacing. reflexivity.
Qed.

(** ** main: every listed node is handled *)

(** Whatever the collaborators answer, the handling of a node issues exactly
    one opening call, the one that [isReady] decides for the node. *)
Lemma node_opening {St} (h : Handler St) svc cliDryRun n (s : St) :
  filter opening (trace (exec h (main_node svc cliDryRun n) s)) = [first_call svc n].
Proof.
  unfold first_call.
  node_cases h svc cliDryRun n s; try reflexivity.
  destruct cliDryRun.
  - rewrite exec_Println. reflexivity.
  - unfold call. cbn [bind exec].
    destruct (h _ (NodesDelete _ _) _) as [[e |] s2]; cbn [bind];
      rewrite ?exec_Println; reflexivity.
Qed.

(** The opening calls of a pass are those of the listed nodes, one for each
    node, in the order of the listing. *)
Lemma range_openings {St} (h : Handler St) svc cliDryRun items :
  forall s : St,
    filter opening (trace (exec h (main_range svc cliDryRun items) s)) =
    map (first_call svc) items.
Proof.
  induction items as [| n rest IH]; intros s; [reflexivity |].
  rewrite exec_main_range_cons, trace_after, filter_app, node_opening, IH.
  reflexivity.
Qed.

(** A pass gives every listed node the whole loop body, in the order of the
    listing. *)
Lemma range_handled {St} (h : Handler St) svc cliDryRun items :
  forall s : St,
    Handled h svc cliDryRun items s
      (trace (exec h (main_range svc cliDryRun items) s))
      (final (exec h (main_range svc cliDryRun items) s)).
Proof.
  induction items as [| n rest IH]; intros s; [constructor |].
  rewrite exec_main_range_cons, trace_after, final_after.
  constructor. apply IH.
Qed.

(** C9.  A failure in the handling of one node does not end the pass over
    the listing.  When [isReady] returns an error, when [isRunning] returns
    an error, and when the deletion request fails, the only thing that follows
    is the log line of that failure, and the pass goes on with the nodes
    listed after the failing one.  Every one of those nodes is evaluated:
    wherever the node [n] stands in the listing and whatever the collaborators
    answer, for it or for any other node, the pass issues for each listed
    node, in the order of the listing, the call that [isReady] decides for it
    (the failure line, the skip line or the instance lookup), and each node
    gets the whole loop body from the state that the node before it left.  On
    the cluster, the node registry after the handling of the failing node is
    the registry before it: the node is still there at the next listing. *)
Theorem node_failure_does_not_abort {St} (h : Handler St) svc cliDryRun n rest (s : St) :
  let name := metav1.Name (v1.ObjectMeta n) in
  let id := v1.ExternalID (v1.Spec n) in
  let s1 := snd (h _ (lookup svc id) s) in
  (forall b e,
     isReady (v1.Conditions (v1.Status n)) = (b, Some e) ->
     let line := Println ["Failed to check if instance is ready:"; e] in
     exec h (main_range svc cliDryRun (n :: rest)) s =
     after [Ev line] (exec h (main_range svc cliDryRun rest) (snd (h _ line s)))) /\
  (forall b e,
     isReady (v1.Conditions (v1.Status n)) = (false, None) ->
     result (exec h (isRunning svc id) s) = (b, Some e) ->
     let line := Println ["Failed to check if instance is running:"; e] in
     exec h (main_range svc cliDryRun (n :: rest)) s =
     after [Ev (lookup svc id); Ev line]
       (exec h (main_range svc cliDryRun rest) (snd (h _ line s1)))) /\
  (forall e s2,
     isReady (v1.Conditions (v1.Status n)) = (false, None) ->
     result (exec h (isRunning svc id) s) = (false, None) ->
     cliDryRun = false ->
     h _ (NodesDelete name metav1.EmptyDeleteOptions) s1 = (Some e, s2) ->
     let line := Println ["Failed to delete node:"; e] in
     exec h (main_range svc cliDryRun (n :: rest)) s =
     after [Ev (lookup svc id); Ev (NodesDelete name metav1.EmptyDeleteOptions); Ev line]
       (exec h (main_range svc cliDryRun rest) (snd (h _ line s2)))) /\
  (forall pre s0,
     let r := exec h (main_range svc cliDryRun (pre ++ n :: rest)) s0 in
     filter opening (trace r) =
       map (first_call svc) pre ++ first_call svc n :: map (first_call svc) rest /\
     Handled h svc cliDryRun (pre ++ n :: rest) s0 (trace r) (final r)) /\
  (forall s', filter opening (trace (exec h (main_range svc cliDryRun rest) s')) =
              map (first_call svc) rest) /\
  (forall env w,
     Failure (cluster env) svc cliDryRun n w ->
     nodes (final (exec (cluster env) (main_node svc cliDryRun n) w)) = nodes w).
Proof.
  intros name id s1. split; [| split; [| split; [| split; [| split]]]].
  - intros b e Hready line. rewrite exec_main_range_cons.
    rewrite (main_node_readiness_error svc cliDryRun n _ _ Hready), exec_Println.
    reflexivity.
  - intros b e Hready Hres line. rewrite exec_main_range_cons.
    rewrite (exec_main_node_lookup_error h svc cliDryRun n Hready s _ _ Hres), exec_Println.
    reflexivity.
  - intros e s2 Hready Hres -> Hdel line. rewrite exec_main_range_cons.
    rewrite (exec_main_node_candidate h svc false n Hready s Hres).
    unfold call. cbn [bind exec]. fold name id s1. rewrite Hdel.
    cbn [bind]. rewrite exec_Println. reflexivity.
  - intros pre s0 r. subst r. split.
    + rewrite range_openings, map_app. reflexivity.
    + apply range_handled.
  - intros s'. apply range_openings.
  - intros env w [b e Hready | b e Hready Hres | e Hready Hres -> Hdel].
    + rewrite (main_node_readiness_error svc cliDryRun n _ _ Hready), exec_Println.
      reflexivity.
    + rewrite (exec_main_node_lookup_error _ svc cliDryRun n Hready w _ _ Hres), exec_Println.
      reflexivity.
    + rewrite (exec_main_node_candidate _ svc false n Hready w Hres).
      unfold call. cbn [bind exec after final].
      fold name id in Hdel |- *.
      destruct (cluster env _ (NodesDelete name metav1.EmptyDeleteOptions)
                  (snd (cluster env _ (lookup svc id) w))) as [oe w2] eqn:Hc.
      simpl in Hdel. subst oe. cbn [bind]. rewrite exec_Println. cbn [final].
      simpl in Hc. destruct (delete_fails env (S (now w)) name); [| discriminate].
      inversion Hc; subst. reflexivity.
Qed.

Lemma node_failure_does_not_abort_witness :
  exec (cluster all_gone) (main_range us_east false [n5; n2]) {| nodes := [n5; n2]; now := 0 |} =
    after [Ev (Println ["Failed to check if instance is ready:"; "cannot find condition type: Ready"])]
      (exec (cluster all_gone) (main_range us_east false [n2]) {| nodes := [n5; n2]; now := 1 |}) /\
  exec (cluster throttled) (main_range us_east false [n2; n5]) {| nodes := [n2; n5]; now := 0 |} =
    after [Ev (lookup us_east "i-2");
           Ev (Println ["Failed to check if instance is running:"; "RequestLimitExceeded"])]
      (exec (cluster throttled) (main_range us_east false [n5]) {| nodes := [n2; n5]; now := 2 |}) /\
  exec (cluster refused) (main_range us_east false [n2; n5]) {| nodes := [n2; n5]; now := 0 |} =
    after [Ev (lookup us_east "i-2");
           Ev (NodesDelete "n2" metav1.EmptyDeleteOptions);
           Ev (Println ["Failed to delete node:"; "forbidden"])]
      (exec (cluster refused) (main_range us_east false [n5]) {| nodes := [n2; n5]; now := 3 |}) /\
  filter opening
    (trace (exec (cluster all_gone) (main_range us_east false [n5; n1; n2])
              {| nodes := [n5; n1; n2]; now := 0 |})) =
    [Ev (Println ["Failed to check if instance is ready:"; "cannot find condition type: Ready"]);
     Ev (Println ["Node is ready, skipping:"; "n1"]);
     Ev (lookup us_east "i-2")] /\
  nodes (final (exec (cluster refused) (main_node us_east false n2)
                  {| nodes := [n2; n5]; now := 0 |})) = [n2; n5].
Proof.
  split; [| split; [| split; [| split]]].
  - refine (proj1 (@node_failure_does_not_abort _ (cluster all_gone) us_east false n5 [n2]
                     {| nodes := [n5; n2]; now := 0 |})
              false "cannot find condition type: Ready" eq_refl).
  - refine (proj1 (proj2 (@node_failure_does_not_abort _ (cluster throttled) us_east false
                            n2 [n5] {| nodes := [n2; n5]; now := 0 |}))
              false "RequestLimitExceeded" eq_refl eq_refl).
  - refine (proj1 (proj2 (proj2 (@node_failure_does_not_abort _ (cluster refused) us_east
                                   false n2 [n5] {| nodes := [n2; n5]; now := 0 |})))
              "forbidden" {| nodes := [n2; n5]; now := 2 |} eq_refl eq_refl eq_refl eq_refl).
  - refine (proj1 (proj1 (proj2 (proj2 (proj2
              (@node_failure_does_not_abort _ (cluster all_gone) us_east false n5 [n1; n2]
                 {| nodes := [n5; n1; n2]; now := 0 |}))))
              [] {| nodes := [n5; n1; n2]; now := 0 |})).
  - refine (proj2 (proj2 (proj2 (proj2 (proj2
              (@node_failure_does_not_abort _ (cluster refused) us_east
                 false n2 [] {| nodes := []; now := 0 |})))))
              refused {| nodes := [n2; n5]; now := 0 |} _).
    apply deletion_failure with (e := "forbidden"); reflexivity.
Defined.
